(** * Text-to-CAD backend: the text -> shape-parameter pipeline

    A shallow embedding of [web_demo/ml_backend.py]: the predictor
    ([TextToCADModel]), the multi-object parser ([MultiObjectParser]) and
    the HTTP handlers [parse_text], [health] and [retrain].

    Modelling decisions.
    - A Python [str] is a list of characters.  Characters are the code
      points U+0000..U+00FF (Rocq's [ascii]); [lower], [\d], [\s] and [\w]
      are Python's on that range.  Code points above U+00FF are outside
      the model.
    - A Python [float] is a rational ([Q]): comparisons and the shape of
      the arithmetic expressions are the program's, rounding is not
      modelled; of the offsets the stacking rule accumulates only the
      structure is stated, not the values.  A Python [int] is a [Z].
    - [Py.int s] is the value of the decimal numeral [s]; [int s] is the
      call [int(s)] as the interpreter runs it, which raises [ValueError]
      for a numeral of more than 4300 digits.  [parse_exn] and
      [parse_text_exn] are the parser and the handler with that
      exception; [parse] and [parse_text] are what they compute when it
      is not raised.
    - The scikit-learn estimators are opaque: each is represented by the
      function from a text to the value the fitted estimator predicts for
      it, and fitting is an oracle.
    - Calls of [model.predict] are recorded in a trace, so that "the
      predictor is (not) invoked" can be stated. *)

From Stdlib Require Import Ascii String DecimalString.
From Stdlib Require Import List Bool Arith ZArith NArith QArith Lia.
Import ListNotations.

Set Warnings "-register-all".

Open Scope string_scope.
Open Scope list_scope.
Open Scope Q_scope.

(* ================================================================== *)
(** ** Python strings *)
(* ================================================================== *)

Definition str : Type := list ascii.

Coercion list_ascii_of_string : string >-> list.

Module Py.

Definition code (c : ascii) : N := N_of_ascii c.

Definition between (lo hi : N) (c : ascii) : bool :=
  (N.leb lo (code c) && N.leb (code c) hi)%bool.

(** [\d] *)
Definition is_digit (c : ascii) : bool := between 48 57 c.

(** [\s] and [str.isspace] *)
Definition is_space (c : ascii) : bool :=
  (between 9 13 c || between 28 32 c
   || N.eqb (code c) 133 || N.eqb (code c) 160)%bool.

(** [\w] *)
Definition is_word (c : ascii) : bool :=
  (is_digit c || between 65 90 c || N.eqb (code c) 95 || between 97 122 c
   || N.eqb (code c) 170 || between 178 179 c || N.eqb (code c) 181
   || between 185 186 c || between 188 190 c
   || between 192 214 c || between 216 246 c || between 248 255 c)%bool.

Definition lower_char (c : ascii) : ascii :=
  if (between 65 90 c || between 192 214 c || between 216 222 c)%bool
  then ascii_of_N (code c + 32)
  else c.

(** [s.lower()] *)
Definition lower (s : str) : str := map lower_char s.

Definition eqb_char (a b : ascii) : bool := Ascii.eqb a b.

(** [a == b] on strings *)
Fixpoint eqb (a b : str) : bool :=
  match a, b with
  | [], [] => true
  | c :: a', d :: b' => (eqb_char c d && eqb a' b')%bool
  | _, _ => false
  end.

(** [s.startswith(p)] *)
Fixpoint startswith (p s : str) : bool :=
  match p, s with
  | [], _ => true
  | _ :: _, [] => false
  | a :: p', b :: s' => (eqb_char a b && startswith p' s')%bool
  end.

(** [p in s] *)
Fixpoint contains (p s : str) : bool :=
  if startswith p s then true
  else match s with
       | [] => false
       | _ :: s' => contains p s'
       end.

(** [s.split(sep)] for a non-empty separator: [cur] holds the current
    segment reversed, [skip] the characters of a recognised separator
    still to be dropped. *)
Fixpoint split_go (sep s cur : str) (skip : nat) : list str :=
  match s with
  | [] => [rev cur]
  | c :: s' =>
      match skip with
      | S n => split_go sep s' cur n
      | O =>
          if startswith sep s
          then rev cur :: split_go sep s' [] (length sep - 1)
          else split_go sep s' (c :: cur) 0
      end
  end.

Definition split (sep s : str) : list str := split_go sep s [] 0.

Fixpoint lstrip (s : str) : str :=
  match s with
  | c :: s' => if is_space c then lstrip s' else s
  | [] => []
  end.

(** [s.strip()] *)
Definition strip (s : str) : str := rev (lstrip (rev (lstrip s))).

Definition digit_value (c : ascii) : Z := Z.of_N (code c - 48).

(** [int(s)] on a string of decimal digits *)
Definition int (s : str) : Z :=
  fold_left (fun acc c => (acc * 10 + digit_value c)%Z) s 0%Z.

(** [max(a, b)]: the first argument is kept unless the second is
    strictly greater. *)
Definition max (a b : Q) : Q :=
  if Qle_bool b a then a else b.

End Py.

(* ================================================================== *)
(** ** Regular expressions ([re.search]) *)
(* ================================================================== *)

Module Re.

(** The constructs that occur in the program's patterns. *)
Inductive regex : Type :=
| Eps                                  (* empty pattern *)
| Chr (c : ascii)                      (* a literal character *)
| Class (p : ascii -> bool)            (* \d, \s, \w *)
| Plus (p : ascii -> bool)             (* \d+, \s+, \w+ (greedy) *)
| Seq (r1 r2 : regex)                  (* r1 r2 *)
| Alt (r1 r2 : regex)                  (* r1|r2, left first *)
| Opt (r : regex)                      (* r? (greedy) *)
| Group (n : nat) (r : regex).         (* n-th capturing group *)

(** A literal string. *)
Fixpoint lit (s : str) : regex :=
  match s with
  | [] => Eps
  | c :: s' => Seq (Chr c) (lit s')
  end.

(** Alternation of literal strings, in the order written. *)
Fixpoint alts (l : list str) : regex :=
  match l with
  | [] => Eps
  | [s] => lit s
  | s :: l' => Alt (lit s) (alts l')
  end.

Definition captures : Type := list (nat * str).

Fixpoint group (n : nat) (caps : captures) : str :=
  match caps with
  | [] => []
  | (i, s) :: caps' => if Nat.eqb i n then s else group n caps'
  end.

Definition orelse {A} (a b : option A) : option A :=
  match a with
  | Some _ => a
  | None => b
  end.

(** Greedy [p+]: take one more character when possible, hand over to the
    continuation only when the longer attempts failed. *)
Fixpoint plus_here (p : ascii -> bool) (s : str)
         (k : str -> option captures) : option captures :=
  match s with
  | c :: s' => if p c then orelse (plus_here p s' k) (k s') else None
  | [] => None
  end.

(** Backtracking matcher anchored at the head of [s]; [k] is the rest of
    the pattern. *)
Fixpoint match_here (r : regex) (s : str) (caps : captures)
         (k : str -> captures -> option captures) : option captures :=
  match r with
  | Eps => k s caps
  | Chr c =>
      match s with
      | c' :: s' => if Py.eqb_char c c' then k s' caps else None
      | [] => None
      end
  | Class p =>
      match s with
      | c' :: s' => if p c' then k s' caps else None
      | [] => None
      end
  | Plus p => plus_here p s (fun s' => k s' caps)
  | Seq r1 r2 =>
      match_here r1 s caps (fun s' caps' => match_here r2 s' caps' k)
  | Alt r1 r2 => orelse (match_here r1 s caps k) (match_here r2 s caps k)
  | Opt r1 => orelse (match_here r1 s caps k) (k s caps)
  | Group n r1 =>
      match_here r1 s caps
        (fun s' caps' =>
           k s' ((n, firstn (length s - length s') s) :: caps'))
  end.

Definition match_at (r : regex) (s : str) : option captures :=
  match_here r s [] (fun _ caps => Some caps).

(** [re.search(r, s)]: the match at the leftmost position that has one. *)
Fixpoint search (r : regex) (s : str) : option captures :=
  match match_at r s with
  | Some caps => Some caps
  | None =>
      match s with
      | [] => None
      | _ :: s' => search r s'
      end
  end.

Definition found (r : regex) (s : str) : bool :=
  match search r s with
  | Some _ => true
  | None => false
  end.

End Re.

(* ================================================================== *)
(** ** Data model *)
(* ================================================================== *)

(** The ["position"] dictionary with its keys ["x"], ["y"], ["z"]. *)
Record Position : Type := mkPosition { pos_x : Q; pos_y : Q; pos_z : Q }.

(** The dictionary returned by [predict]. *)
Record ShapeParameters : Type := mkShape {
  shape : string;
  size : Q;
  radius : Q;
  height : Q;
  color : Z;
  position : Position;
  confidence : Q
}.

(** [obj['position'] = p] *)
Definition set_position (obj : ShapeParameters) (p : Position)
  : ShapeParameters :=
  mkShape (shape obj) (size obj) (radius obj) (height obj) (color obj)
          p (confidence obj).

(** [obj['size'] *= k] *)
Definition scale_size (obj : ShapeParameters) (k : Q) : ShapeParameters :=
  mkShape (shape obj) (size obj * k) (radius obj) (height obj) (color obj)
          (position obj) (confidence obj).

(** [obj['radius'] *= k] *)
Definition scale_radius (obj : ShapeParameters) (k : Q) : ShapeParameters :=
  mkShape (shape obj) (size obj) (radius obj * k) (height obj) (color obj)
          (position obj) (confidence obj).

(** A JSON value as [request.json] delivers it. *)
Inductive json : Type :=
| JNull
| JBool (b : bool)
| JInt (n : Z)
| JFloat (q : Q)
| JStr (s : str)
| JArr (items : list json)
| JObj (fields : list (str * json)).

(** The fitted estimators together with the vectorizer: what each predicts
    for a text.  [shape_proba] is [max(predict_proba(X)[0])]. *)
Record Estimators : Type := mkEstimators {
  shape_classifier : str -> string;
  shape_proba : str -> Q;
  size_predictor : str -> Q;
  radius_predictor : str -> Q;
  height_predictor : str -> Q
}.

Record TextToCADModel : Type := mkModel {
  estimators : Estimators;
  training_data : list json;
  trained : bool
}.

(* ================================================================== *)
(** ** TextToCADModel: the predictor *)
(* ================================================================== *)

Definition color_map : list (str * Z) :=
  [ ("red" : str, 0xff4444); ("blue" : str, 0x4444ff);
    ("green" : str, 0x44ff44); ("yellow" : str, 0xffff44);
    ("purple" : str, 0xff44ff); ("orange" : str, 0xff8844);
    ("cyan" : str, 0x44ffff); ("white" : str, 0xffffff);
    ("black" : str, 0x222222); ("pink" : str, 0xff88cc);
    ("brown" : str, 0x8b4513); ("gray" : str, 0x888888);
    ("grey" : str, 0x888888) ]%Z.

Definition default_color : Z := 0x667eea%Z.

(** The loop [for color_name, hex_value in color_map.items()]. *)
Fixpoint first_color (entries : list (str * Z)) (text_lower : str) : Z :=
  match entries with
  | [] => default_color
  | (color_name, hex_value) :: rest =>
      if Py.contains color_name text_lower then hex_value
      else first_color rest text_lower
  end.

Definition find_similar_color (text : str) : Z :=
  let text_lower := Py.lower text in
  first_color color_map text_lower.

(** [any(word in text for word in words)] *)
Definition any_in (words : list str) (text : str) : bool :=
  existsb (fun word => Py.contains word text) words.

Definition origin : Position := mkPosition 0 0 0.

Definition rule_based_parse (text : str) : ShapeParameters :=
  let text_lower := Py.lower text in
  let shape :=
    if any_in ["sphere" : str; "ball" : str; "orb" : str; "globe" : str]
              text_lower then "sphere"
    else if any_in ["cube" : str; "box" : str; "block" : str; "square" : str]
                   text_lower then "cube"
    else if any_in ["cylinder" : str; "tube" : str; "pipe" : str;
                    "column" : str] text_lower then "cylinder"
    else if any_in ["cone" : str; "pyramid" : str; "triangle" : str]
                   text_lower then "cone"
    else if any_in ["torus" : str; "donut" : str; "ring" : str]
                   text_lower then "torus"
    else "sphere" in
  let size :=
    if any_in ["large" : str; "big" : str; "huge" : str] text_lower
    then 2.0
    else if any_in ["small" : str; "tiny" : str; "little" : str] text_lower
    then 0.5
    else 1.0 in
  {| shape := shape;
     size := size;
     radius := size;
     height := if (String.eqb shape "cylinder" || String.eqb shape "cone")%bool
               then 2.5 else 2.0;
     color := find_similar_color text;
     position := origin;
     confidence := 0.7 |}.

Definition predict (m : TextToCADModel) (text : str) : ShapeParameters :=
  if negb (trained m) then rule_based_parse text
  else
    let e := estimators m in
    {| shape := shape_classifier e text;
       size := Py.max 0.1 (size_predictor e text);
       radius := Py.max 0.1 (radius_predictor e text);
       height := Py.max 0.1 (height_predictor e text);
       color := find_similar_color text;
       position := origin;
       confidence := shape_proba e text |}.

(* ================================================================== *)
(** ** Recording the calls of the predictor *)
(* ================================================================== *)

(** A computation that yields a value and the texts [model.predict] was
    called on, in call order. *)
Definition Traced (A : Type) : Type := (A * list str)%type.

Definition ret {A} (a : A) : Traced A := (a, []).

Definition bind {A B} (c : Traced A) (f : A -> Traced B) : Traced B :=
  let (b, calls) := f (fst c) in (b, snd c ++ calls).

Notation "x <- c ;; k" := (bind c (fun x => k))
  (at level 61, c at next level, right associativity).

Definition value {A} (c : Traced A) : A := fst c.
Definition predictor_calls {A} (c : Traced A) : list str := snd c.

(** [self.model.predict(text)] *)
Definition call_predict (m : TextToCADModel) (text : str)
  : Traced ShapeParameters :=
  (predict m text, [text]).

(** A [for] loop that appends one object per element. *)
Fixpoint for_each {A B} (l : list A) (body : A -> Traced B)
  : Traced (list B) :=
  match l with
  | [] => ret []
  | a :: l' =>
      b <- body a ;;
      bs <- for_each l' body ;;
      ret (b :: bs)
  end.

(** [enumerate(l)] *)
Definition enumerate {A} (l : list A) : list (nat * A) :=
  combine (seq 0 (length l)) l.

(** [range(n)] *)
Definition range (n : Z) : list nat := seq 0 (Z.to_nat n).

(* ================================================================== *)
(** ** MultiObjectParser *)
(* ================================================================== *)

Definition seqs (l : list Re.regex) : Re.regex :=
  fold_right Re.Seq Re.Eps l.

(** \d+\s+(spheres|cubes|cylinders|cones) *)
Definition count_indicator : Re.regex :=
  seqs [Re.Plus Py.is_digit; Re.Plus Py.is_space;
        Re.Group 1 (Re.alts ["spheres" : str; "cubes" : str;
                             "cylinders" : str; "cones" : str])].

(** and\s+(?:a|an) *)
Definition and_indicator : Re.regex :=
  seqs [Re.lit "and"; Re.Plus Py.is_space; Re.alts ["a" : str; "an" : str]].

(** with\s+(?:a|an|\d+) *)
Definition with_indicator : Re.regex :=
  seqs [Re.lit "with"; Re.Plus Py.is_space;
        Re.Alt (Re.lit "a") (Re.Alt (Re.lit "an") (Re.Plus Py.is_digit))].

Definition multi_indicators : list Re.regex :=
  [ count_indicator; and_indicator; with_indicator;
    Re.lit "stack"; Re.lit "multiple"; Re.lit "several";
    Re.lit "above"; Re.lit "below"; Re.lit "next to"; Re.lit "on top" ].

Definition is_multi_object (text : str) : bool :=
  existsb (fun pattern => Re.found pattern text) multi_indicators.

(** (\d+)\s+(sphere|cube|cylinder|cone|torus|ball|box|tube)s? *)
Definition quantity_pattern : Re.regex :=
  seqs [Re.Group 1 (Re.Plus Py.is_digit); Re.Plus Py.is_space;
        Re.Group 2 (Re.alts ["sphere" : str; "cube" : str; "cylinder" : str;
                             "cone" : str; "torus" : str; "ball" : str;
                             "box" : str; "tube" : str]);
        Re.Opt (Re.Chr "s")].

(** stack\s+(\d+)\s+(\w+) *)
Definition stack_pattern : Re.regex :=
  seqs [Re.lit "stack"; Re.Plus Py.is_space;
        Re.Group 1 (Re.Plus Py.is_digit); Re.Plus Py.is_space;
        Re.Group 2 (Re.Plus Py.is_word)].

(** The groups 1 and 2 of [re.search(pattern, text)]. *)
Definition search_groups (pattern : Re.regex) (text : str)
  : option (str * str) :=
  match Re.search pattern text with
  | Some caps => Some (Re.group 1 caps, Re.group 2 caps)
  | None => None
  end.

Definition composite_shapes : list (str * list (str * Position * Q)) :=
  [ ("house" : str,
     [ ("cube walls" : str, mkPosition 0 0 0, 3.0);
       ("cone roof" : str, mkPosition 0 2 0, 1.5) ]);
    ("table" : str,
     [ ("cube top" : str, mkPosition 0 2 0, 1.0);
       ("cylinder leg" : str, mkPosition (-1.5) 0 (-1.5), 0.3);
       ("cylinder leg" : str, mkPosition 1.5 0 (-1.5), 0.3);
       ("cylinder leg" : str, mkPosition (-1.5) 0 1.5, 0.3);
       ("cylinder leg" : str, mkPosition 1.5 0 1.5, 0.3) ]);
    ("snowman" : str,
     [ ("large sphere" : str, mkPosition 0 0 0, 2.0);
       ("sphere" : str, mkPosition 0 2.5 0, 1.5);
       ("small sphere" : str, mkPosition 0 4.2 0, 1.0) ]) ].

(** The stacking loop; [y_offset] is the running offset. *)
Fixpoint stack_loop (m : TextToCADModel) (shape_text : str) (n : nat)
         (y_offset : Q) : Traced (list ShapeParameters) :=
  match n with
  | O => ret []
  | S n' =>
      obj <- call_predict m shape_text ;;
      let obj := set_position obj (mkPosition 0 y_offset 0) in
      let y_offset := y_offset + size obj * 2 in
      objects <- stack_loop m shape_text n' y_offset ;;
      ret (obj :: objects)
  end.

Definition extract_multiple_objects (m : TextToCADModel) (text : str)
  : Traced (list ShapeParameters) :=
  (* Pattern 1: explicit "and" separator *)
  if Py.contains " and " text then
    let parts := Py.split " and " text in
    for_each (enumerate parts)
      (fun '(i, part) =>
         obj <- call_predict m (Py.strip part) ;;
         ret (set_position obj
                (mkPosition (inject_Z (Z.of_nat i * 2)) 0 0)))
  else
  (* Pattern 2: number of objects *)
  match search_groups quantity_pattern text with
  | Some (group1, group2) =>
      let count := Py.int group1 in
      let shape_text := group2 in
      for_each (range (Z.min count 10))
        (fun i =>
           obj <- call_predict m shape_text ;;
           ret (set_position obj
                  (mkPosition (inject_Z (Z.of_nat i * 2 - count)) 0 0)))
  | None =>
  (* Pattern 3: composite objects *)
  match find (fun '(composite_name, _) => Py.contains composite_name text)
             composite_shapes with
  | Some (_, parts) =>
      for_each parts
        (fun '(part_text, position, size_mult) =>
           obj <- call_predict m part_text ;;
           let obj := set_position obj position in
           let obj := scale_size obj size_mult in
           let obj := scale_radius obj size_mult in
           ret obj)
  | None =>
  (* Pattern 4: stacking *)
  match search_groups stack_pattern text with
  | Some (group1, group2) =>
      let count := Py.int group1 in
      let shape_text := group2 in
      stack_loop m shape_text (Z.to_nat (Z.min count 10)) 0
  | None =>
  (* Fallback: single object *)
      obj <- call_predict m text ;;
      ret [obj]
  end end end.

Definition parse (m : TextToCADModel) (text : str)
  : Traced (list ShapeParameters) :=
  let text_lower := Py.lower text in
  if is_multi_object text_lower then
    extract_multiple_objects m text_lower
  else
    obj <- call_predict m text ;;
    ret [obj].

(* ================================================================== *)
(** ** API endpoints *)
(* ================================================================== *)

(** The body passed to [jsonify]. *)
Inductive Body : Type :=
| ErrorBody (error : str)
| ParseBody (objects : list ShapeParameters) (count : nat)
            (interpretation : str) (ml_powered : bool)
| HealthBody (status : str) (models_trained : bool)
             (training_examples : nat)
| RetrainBody (status : str) (total_examples : nat).

Record Response : Type := mkResponse { body : Body; status_code : nat }.

(** [request.json]: the decoded body, or the message of the exception
    raised while decoding it. *)
Definition RequestJson : Type := (str + json)%type.

(** Python's truth value of a decoded JSON value. *)
Definition truthy (v : json) : bool :=
  match v with
  | JNull => false
  | JBool b => b
  | JInt n => negb (Z.eqb n 0)
  | JFloat q => negb (Qeq_bool q 0)
  | JStr s => match s with [] => false | _ => true end
  | JArr items => match items with [] => false | _ => true end
  | JObj fields => match fields with [] => false | _ => true end
  end.

Definition type_name (v : json) : str :=
  match v with
  | JNull => "NoneType"
  | JBool _ => "bool"
  | JInt _ => "int"
  | JFloat _ => "float"
  | JStr _ => "str"
  | JArr _ => "list"
  | JObj _ => "dict"
  end.

(** The message of the [AttributeError] for [v.attr]. *)
Definition no_attribute (v : json) (attr : str) : str :=
  "'" ++ type_name v ++ "' object has no attribute '" ++ attr ++ "'".

Fixpoint lookup (key : str) (fields : list (str * json)) : option json :=
  match fields with
  | [] => None
  | (k, v) :: rest =>
      if Py.eqb k key then Some v
      else lookup key rest
  end.

(** [data.get(key, default)]; only a dictionary has [get]. *)
Definition get (data : json) (key : str) (default : json) : str + json :=
  match data with
  | JObj fields =>
      match lookup key fields with
      | Some v => inr v
      | None => inr default
      end
  | _ => inl (no_attribute data "get")
  end.

(** [str(n)] for a length *)
Definition str_of_nat (n : nat) : str :=
  list_ascii_of_string (NilEmpty.string_of_uint (Nat.to_uint n)).

(** [POST /parse-text] *)
Definition parse_text (m : TextToCADModel) (request_json : RequestJson)
  : Traced Response :=
  match request_json with
  | inl e => ret (mkResponse (ErrorBody e) 500)
  | inr data =>
      match get data "text" (JStr []) with
      | inl e => ret (mkResponse (ErrorBody e) 500)
      | inr text =>
          if negb (truthy text) then
            ret (mkResponse (ErrorBody "No text provided") 400)
          else
            match text with
            | JStr text =>
                objects <- parse m text ;;
                ret (mkResponse
                       (ParseBody objects (length objects)
                          ("Generated " ++ str_of_nat (length objects)
                                        ++ " object(s)")
                          (trained m))
                       200)
            | _ => ret (mkResponse (ErrorBody (no_attribute text "lower")) 500)
            end
      end
  end.

(** [GET /health] *)
Definition health (m : TextToCADModel) : Response :=
  mkResponse (HealthBody "healthy" (trained m) (length (training_data m))) 200.

Section Retraining.

(** Fitting the vectorizer and the estimators on a corpus: the state the
    estimators are left in, and the message of the exception if one is
    raised on the way. *)
Variable fit : list json -> Estimators -> Estimators * option str.

Definition train_models (m : TextToCADModel)
  : TextToCADModel * option str :=
  if (length (training_data m) <? 5)%nat then (m, None)
  else
    match fit (training_data m) (estimators m) with
    | (e, Some err) => (mkModel e (training_data m) (trained m), Some err)
    | (e, None) => (mkModel e (training_data m) true, None)
    end.

(** The process: the global [model] and the content of
    [training_data.json]. *)
Record Server : Type := mkServer {
  model : TextToCADModel;
  training_file : option (list json)
}.

(** [model.training_data.append(example)] *)
Definition append_example (m : TextToCADModel) (example : json)
  : TextToCADModel :=
  mkModel (estimators m) (training_data m ++ [example]) (trained m).

(** [json.dump] of the corpus into the file; the write is taken to
    succeed. *)
Definition save_training_data (s : Server) : Server :=
  mkServer (model s) (Some (training_data (model s))).

Definition retrained (m : TextToCADModel) : Response :=
  mkResponse (RetrainBody "retrained" (length (training_data m))) 200.

(** [POST /retrain] *)
Definition retrain (s : Server) (request_json : RequestJson)
  : Server * Response :=
  match request_json with
  | inl e => (s, mkResponse (ErrorBody e) 500)
  | inr data =>
      match get data "example" JNull with
      | inl e => (s, mkResponse (ErrorBody e) 500)
      | inr new_example =>
          if truthy new_example then
            let m := append_example (model s) new_example in
            match train_models m with
            | (m, Some e) =>
                (mkServer m (training_file s),
                 mkResponse (ErrorBody e) 500)
            | (m, None) =>
                let s := save_training_data (mkServer m (training_file s)) in
                (s, retrained (model s))
            end
          else (s, retrained (model s))
      end
  end.

Inductive Request : Type :=
| PostParseText (request_json : RequestJson)
| GetHealth
| PostRetrain (request_json : RequestJson).

(** One request served by the process. *)
Definition serve (s : Server) (r : Request) : Server * Response :=
  match r with
  | PostParseText request_json =>
      (s, value (parse_text (model s) request_json))
  | GetHealth => (s, health (model s))
  | PostRetrain request_json => retrain s request_json
  end.

(** The state after a sequence of requests. *)
Definition session (s : Server) (rs : list Request) : Server :=
  fold_left (fun s r => fst (serve s r)) rs s.

End Retraining.

(* ================================================================== *)
(** ** Vocabulary of the properties *)
(* ================================================================== *)

(** [p] occurs in [s] as a contiguous substring. *)
Definition occurs (p s : str) : Prop :=
  exists pre post, s = pre ++ p ++ post.

(** Two concrete models.  [sphere_only_model] is fitted on a corpus of
    eight copies of one example that labels the text "cube" as a sphere:
    a classifier fitted on a single class answers that class for every
    text, and the regressors answer the one value they have seen.
    [untrained_model] has never been trained. *)
Definition sphere_example : json :=
  JObj [("text" : str, JStr "cube"); ("shape" : str, JStr "sphere");
        ("size" : str, JInt 1); ("radius" : str, JInt 1);
        ("height" : str, JInt 2); ("color" : str, JInt 0x667eea);
        ("position" : str, JArr [JInt 0; JInt 0; JInt 0])].

Definition sphere_only_estimators : Estimators :=
  mkEstimators (fun _ => "sphere") (fun _ => 1)
               (fun _ => 1) (fun _ => 1) (fun _ => 2).

Definition sphere_only_model : TextToCADModel :=
  mkModel sphere_only_estimators (repeat sphere_example 8) true.

Definition untrained_model : TextToCADModel :=
  mkModel sphere_only_estimators [] false.

(** A fitting that succeeds and leaves the estimators as they are, and a
    process that has just started on an untrained model. *)
Definition refit_unchanged (_ : list json) (e : Estimators)
  : Estimators * option str := (e, None).

Definition fresh_server : Server := mkServer untrained_model None.

Ltac split_ifs :=
  repeat match goal with
         | |- context [if ?b then _ else _] => destruct b
         end.

Ltac each_entry H :=
  repeat (destruct H as [H | H];
          [injection H as <- <-; reflexivity |]);
  contradiction.

(** The statement about ["3 cubes"] as the specification has it. *)
Definition three_cubes_all_cubes (m : TextToCADModel) : Prop :=
  let objects := value (parse m "3 cubes") in
  length objects = 3%nat
  /\ Forall (fun o => shape o = "cube") objects
  /\ map position objects
     = [mkPosition (-3) 0 0; mkPosition (-1) 0 0; mkPosition 1 0 0].

(** The strings a pattern denotes. *)
Inductive Matches : Re.regex -> str -> Prop :=
| M_Eps : Matches Re.Eps []
| M_Chr c : Matches (Re.Chr c) [c]
| M_Class p c : p c = true -> Matches (Re.Class p) [c]
| M_Plus p s : s <> [] -> forallb p s = true -> Matches (Re.Plus p) s
| M_Seq r1 r2 s1 s2 :
    Matches r1 s1 -> Matches r2 s2 -> Matches (Re.Seq r1 r2) (s1 ++ s2)
| M_AltL r1 r2 s : Matches r1 s -> Matches (Re.Alt r1 r2) s
| M_AltR r1 r2 s : Matches r2 s -> Matches (Re.Alt r1 r2) s
| M_OptNone r : Matches (Re.Opt r) []
| M_OptSome r s : Matches r s -> Matches (Re.Opt r) s
| M_Group n r s : Matches r s -> Matches (Re.Group n r) s.

Create HintDb re.
#[local] Hint Constructors Matches : re.

(** A non-empty string of characters of one class. *)
Definition all_of (p : ascii -> bool) (s : str) : Prop :=
  s <> [] /\ forallb p s = true.

Definition detected_plurals : list str :=
  ["spheres" : str; "cubes" : str; "cylinders" : str; "cones" : str].

(** The next character of [s], if any, is outside the class [p]. *)
Definition stops (p : ascii -> bool) (s : str) : Prop :=
  match s with
  | [] => True
  | c :: _ => p c = false
  end.

(** [rejects r c]: no match of [r] starts with the character [c]. *)
Fixpoint rejects (r : Re.regex) (c : ascii) : bool :=
  match r with
  | Re.Eps => false
  | Re.Chr a => negb (Py.eqb_char a c)
  | Re.Class p => negb (p c)
  | Re.Plus p => negb (p c)
  | Re.Seq r1 _ => rejects r1 c
  | Re.Alt r1 r2 => rejects r1 c && rejects r2 c
  | Re.Opt _ => false
  | Re.Group _ r1 => rejects r1 c
  end.

(** Every character, for proofs by exhaustion over the 256 of them. *)
Definition all_chars : list ascii := map ascii_of_nat (seq 0 256).

Definition undetected_nouns : list str :=
  ["balls" : str; "boxes" : str; "tubes" : str; "torus" : str].

(** The singular the quantity pattern captures for each of them. *)
Definition undetected_singulars : list (str * str) :=
  [("balls" : str, "ball" : str); ("boxes" : str, "box" : str);
   ("tubes" : str, "tube" : str); ("torus" : str, "torus" : str)].

(** The requests the quantity rule, respectively the stacking rule, of the
    extraction answers, with the count it parses. *)
Definition quantity_request (text : str) (count : Z) : Prop :=
  let text_lower := Py.lower text in
  is_multi_object text_lower = true
  /\ Py.contains " and " text_lower = false
  /\ exists number noun,
      search_groups quantity_pattern text_lower = Some (number, noun)
      /\ count = Py.int number.

Definition stacking_request (text : str) (count : Z) : Prop :=
  let text_lower := Py.lower text in
  Py.contains " and " text_lower = false
  /\ search_groups quantity_pattern text_lower = None
  /\ find (fun '(composite_name, _) =>
             Py.contains composite_name text_lower) composite_shapes = None
  /\ exists number word,
      search_groups stack_pattern text_lower = Some (number, word)
      /\ count = Py.int number.

(* ================================================================== *)
(** ** Construction of the model *)
(* ================================================================== *)

(** One entry of [default_data]; every entry has the position [0,0,0]. *)
Definition example (text : str) (shape : str) (size radius height : json)
           (color : Z) : json :=
  JObj [("text" : str, JStr text); ("shape" : str, JStr shape);
        ("size" : str, size); ("radius" : str, radius);
        ("height" : str, height); ("color" : str, JInt color);
        ("position" : str, JArr [JInt 0; JInt 0; JInt 0])].

Definition default_data : list json :=
  [ (* Spheres *)
    example "red sphere" "sphere" (JInt 1) (JInt 1) (JInt 2) 0xff4444;
    example "large ball" "sphere" (JInt 2) (JInt 2) (JInt 2) 0x667eea;
    example "small orb" "sphere" (JFloat 0.5) (JFloat 0.5) (JInt 2) 0x667eea;
    example "blue globe" "sphere" (JFloat 1.5) (JFloat 1.5) (JInt 2) 0x4444ff;
    (* Cubes *)
    example "cube" "cube" (JInt 1) (JInt 1) (JInt 2) 0x667eea;
    example "big box" "cube" (JInt 2) (JInt 1) (JInt 2) 0x667eea;
    example "small block" "cube" (JFloat 0.5) (JInt 1) (JInt 2) 0x667eea;
    example "green square" "cube" (JInt 1) (JInt 1) (JInt 2) 0x44ff44;
    (* Cylinders *)
    example "cylinder" "cylinder" (JInt 1) (JInt 1) (JInt 3) 0x667eea;
    example "tall tube" "cylinder" (JInt 1) (JFloat 0.8) (JInt 4) 0x667eea;
    example "pipe" "cylinder" (JInt 1) (JFloat 0.5) (JInt 3) 0x667eea;
    example "column" "cylinder" (JFloat 1.5) (JInt 1) (JInt 5) 0x667eea;
    (* Cones *)
    example "cone" "cone" (JInt 1) (JInt 1) (JFloat 2.5) 0x667eea;
    example "triangle" "cone" (JInt 1) (JInt 1) (JInt 2) 0x667eea;
    example "pyramid" "cone" (JFloat 1.5) (JFloat 1.5) (JInt 3) 0x667eea;
    (* Torus *)
    example "torus" "torus" (JInt 1) (JInt 1) (JInt 2) 0x667eea;
    example "donut" "torus" (JFloat 1.2) (JFloat 1.2) (JInt 2) 0x667eea;
    example "ring" "torus" (JFloat 0.8) (JFloat 0.8) (JInt 2) 0x667eea ]%Z.

Section Construction.

(** The fitting oracle of [train_models]. *)
Variable fit : list json -> Estimators -> Estimators * option str.

(** An exception raised by [train_models] leaves the constructor; the
    result is then the message instead of a model. *)
Definition train_or_raise (m : TextToCADModel) : str + TextToCADModel :=
  match train_models fit m with
  | (_, Some err) => inl err
  | (m', None) => inr m'
  end.

(** [self.training_data = data] *)
Definition set_training_data (m : TextToCADModel) (data : list json)
  : TextToCADModel :=
  mkModel (estimators m) data (trained m).

Definition init_default_training (m : TextToCADModel)
  : str + TextToCADModel :=
  train_or_raise (set_training_data m default_data).

(** [file] is the content of [training_data.json] when the file exists: the
    JSON array [save_training_data] wrote. *)
Definition load_training_data (m : TextToCADModel)
           (file : option (list json)) : str + TextToCADModel :=
  match file with
  | None => inr m
  | Some data =>
      let m := set_training_data m data in
      if (5 <=? length data)%nat then train_or_raise m else inr m
  end.

(** [TextToCADModel()]: [unfitted] are the estimators as constructed. *)
Definition new_model (unfitted : Estimators) (file : option (list json))
  : str + TextToCADModel :=
  let m := mkModel unfitted [] false in
  match load_training_data m file with
  | inl err => inl err
  | inr m =>
      if negb (trained m) then init_default_training m else inr m
  end.

(** The process after the module is loaded: the model and the file as it
    was found. *)
Definition start (unfitted : Estimators) (file : option (list json))
  : str + Server :=
  match new_model unfitted file with
  | inl err => inl err
  | inr m => inr (mkServer m file)
  end.

End Construction.

(* ================================================================== *)
(** ** Vocabulary of the further properties *)
(* ================================================================== *)

(** What the parser leaves of a prediction [p] in the object [o] it
    returns: everything but position, size and radius. *)
Definition kept (p o : ShapeParameters) : Prop :=
  shape o = shape p /\ color o = color p /\ height o = height p
  /\ confidence o = confidence p.

(** The object comes from the prediction for the text [call]. *)
Definition predicted_from (m : TextToCADModel) (call : str)
           (o : ShapeParameters) : Prop :=
  kept (predict m call) o.

(** The dimensions every returned object has at least. *)
Definition solid (o : ShapeParameters) : Prop :=
  0.03 <= size o /\ 0.03 <= radius o /\ 0.1 <= height o.

(** The words whose mere occurrence makes a text multi-object. *)
Definition literal_indicators : list str :=
  ["stack" : str; "multiple" : str; "several" : str; "above" : str;
   "below" : str; "next to" : str; "on top" : str].

(** The texts [is_multi_object] accepts, without regular expressions: a
    number, white space and one of four plurals; "and", white space and an
    "a"; "with", white space and an "a" or a digit; or one of the seven
    words. *)
Definition detected (text : str) : Prop :=
  (exists pre digits spaces noun post,
      text = pre ++ digits ++ spaces ++ noun ++ post
      /\ all_of Py.is_digit digits /\ all_of Py.is_space spaces
      /\ In noun detected_plurals)
  \/ (exists pre spaces post,
         text = pre ++ "and" ++ spaces ++ "a" ++ post
         /\ all_of Py.is_space spaces)
  \/ (exists pre spaces c post,
         text = pre ++ "with" ++ spaces ++ c :: post
         /\ all_of Py.is_space spaces
         /\ (c = "a"%char \/ Py.is_digit c = true))
  \/ (exists word, In word literal_indicators /\ occurs word text).

(** [sep.join(parts)] *)
Fixpoint join (sep : str) (parts : list str) : str :=
  match parts with
  | [] => []
  | part :: rest =>
      match rest with
      | [] => part
      | _ :: _ => part ++ sep ++ join sep rest
      end
  end.

(** The plurals the detection knows, with the singular the quantity
    pattern captures. *)
Definition detected_singulars : list (str * str) :=
  [("spheres" : str, "sphere" : str); ("cubes" : str, "cube" : str);
   ("cylinders" : str, "cylinder" : str); ("cones" : str, "cone" : str)].

(** Keyword groups in the order the rule-based parser tries them, each
    with the value it stands for; [first_group] is the value of the first
    group one of whose words occurs in the text. *)
Definition shape_keywords : list (list str * string) :=
  [ (["sphere" : str; "ball" : str; "orb" : str; "globe" : str], "sphere");
    (["cube" : str; "box" : str; "block" : str; "square" : str], "cube");
    (["cylinder" : str; "tube" : str; "pipe" : str; "column" : str],
     "cylinder");
    (["cone" : str; "pyramid" : str; "triangle" : str], "cone");
    (["torus" : str; "donut" : str; "ring" : str], "torus") ].

Definition size_keywords : list (list str * Q) :=
  [ (["large" : str; "big" : str; "huge" : str], 2.0);
    (["small" : str; "tiny" : str; "little" : str], 0.5) ].

Fixpoint first_group {A} (default : A) (groups : list (list str * A))
         (text : str) : A :=
  match groups with
  | [] => default
  | (words, v) :: rest =>
      if any_in words text then v else first_group default rest text
  end.

(** One of the words occurs in the text. *)
Definition some_occurs (words : list str) (text : str) : Prop :=
  exists word, In word words /\ occurs word text.

(** The bodies [/parse-text] answers with 200, respectively 400: a JSON
    object whose ["text"] is a non-empty string; a JSON object whose
    ["text"] is missing or has a false truth value. *)
Definition has_text (request_json : RequestJson) : Prop :=
  exists fields text,
    request_json = inr (JObj fields)
    /\ lookup "text" fields = Some (JStr text) /\ text <> [].

Definition lacks_text (request_json : RequestJson) : Prop :=
  exists fields,
    request_json = inr (JObj fields)
    /\ (lookup "text" fields = None
        \/ exists v, lookup "text" fields = Some v /\ truthy v = false).

(** A fitting that raises, whatever the corpus. *)
Definition fit_raises (_ : list json) (e : Estimators)
  : Estimators * option str := (e, Some ("fit failed" : str)).

(** The model answers with its estimators, not with the rule-based
    parser. *)
Definition statistical (m : TextToCADModel) : Prop :=
  forall text,
    predict m text
    = mkShape (shape_classifier (estimators m) text)
              (Py.max 0.1 (size_predictor (estimators m) text))
              (Py.max 0.1 (radius_predictor (estimators m) text))
              (Py.max 0.1 (height_predictor (estimators m) text))
              (find_similar_color text) origin
              (shape_proba (estimators m) text).

(** The colours a prediction can carry. *)
Definition palette : list Z := default_color :: map snd color_map.

(** The object the composite rule makes of one entry of the table. *)
Definition composite_part (m : TextToCADModel)
           (part : str * Position * Q) : ShapeParameters :=
  let '(part_text, position, size_mult) := part in
  scale_radius
    (scale_size (set_position (predict m part_text) position) size_mult)
    size_mult.

(** The outcome of [/parse-text] for a body that is not a JSON object. *)
Ltac not_an_object :=
  right; right;
  split; [intros (? & ? & Heq & _); discriminate Heq |];
  split; [intros (? & Heq & _); discriminate Heq |];
  split; reflexivity.

(* ================================================================== *)
(** ** The exceptions of [int] and of the constructor *)
(* ================================================================== *)

(** The interpreter refuses to convert a numeral of more than
    [max_str_digits] digits (the default of [sys.get_int_max_str_digits()])
    and raises [ValueError].  [Py.int] above is the value of the numeral;
    [int] is the call as the interpreter runs it, with the message of the
    exception on the left. *)
Definition max_str_digits : nat := 4300.

Definition int_limit_message (digits : nat) : str :=
  "Exceeds the limit (4300 digits) for integer string conversion: value has "
  ++ str_of_nat digits
  ++ " digits; use sys.set_int_max_str_digits() to increase the limit".

Definition int (s : str) : str + Z :=
  if (max_str_digits <? length s)%nat then inl (int_limit_message (length s))
  else inr (Py.int s).

(** [extract_multiple_objects] with the exception of [int]: the message of
    the [ValueError] on the left, otherwise the objects and the calls of
    the predictor.  [int] is called before the first prediction of its
    rule, so no call precedes the exception. *)
Definition extract_multiple_objects_exn (m : TextToCADModel) (text : str)
  : str + Traced (list ShapeParameters) :=
  (* Pattern 1: explicit "and" separator *)
  if Py.contains " and " text then
    let parts := Py.split " and " text in
    inr (for_each (enumerate parts)
           (fun '(i, part) =>
              obj <- call_predict m (Py.strip part) ;;
              ret (set_position obj
                     (mkPosition (inject_Z (Z.of_nat i * 2)) 0 0))))
  else
  (* Pattern 2: number of objects *)
  match search_groups quantity_pattern text with
  | Some (group1, group2) =>
      match int group1 with
      | inl error => inl error
      | inr count =>
          let shape_text := group2 in
          inr (for_each (range (Z.min count 10))
                 (fun i =>
                    obj <- call_predict m shape_text ;;
                    ret (set_position obj
                           (mkPosition (inject_Z (Z.of_nat i * 2 - count))
                                       0 0))))
      end
  | None =>
  (* Pattern 3: composite objects *)
  match find (fun '(composite_name, _) => Py.contains composite_name text)
             composite_shapes with
  | Some (_, parts) =>
      inr (for_each parts
             (fun '(part_text, position, size_mult) =>
                obj <- call_predict m part_text ;;
                let obj := set_position obj position in
                let obj := scale_size obj size_mult in
                let obj := scale_radius obj size_mult in
                ret obj))
  | None =>
  (* Pattern 4: stacking *)
  match search_groups stack_pattern text with
  | Some (group1, group2) =>
      match int group1 with
      | inl error => inl error
      | inr count =>
          let shape_text := group2 in
          inr (stack_loop m shape_text (Z.to_nat (Z.min count 10)) 0)
      end
  | None =>
  (* Fallback: single object *)
      inr (obj <- call_predict m text ;; ret [obj])
  end end end.

(** [parse] with the exception of [int]. *)
Definition parse_exn (m : TextToCADModel) (text : str)
  : str + Traced (list ShapeParameters) :=
  let text_lower := Py.lower text in
  if is_multi_object text_lower then
    extract_multiple_objects_exn m text_lower
  else
    inr (obj <- call_predict m text ;; ret [obj]).

(** [POST /parse-text] with the exception of [int] caught by the handler's
    [except Exception] and answered 500. *)
Definition parse_text_exn (m : TextToCADModel) (request_json : RequestJson)
  : Traced Response :=
  match request_json with
  | inl e => ret (mkResponse (ErrorBody e) 500)
  | inr data =>
      match get data "text" (JStr []) with
      | inl e => ret (mkResponse (ErrorBody e) 500)
      | inr text =>
          if negb (truthy text) then
            ret (mkResponse (ErrorBody "No text provided") 400)
          else
            match text with
            | JStr text =>
                match parse_exn m text with
                | inl e => ret (mkResponse (ErrorBody e) 500)
                | inr parsed =>
                    objects <- parsed ;;
                    ret (mkResponse
                           (ParseBody objects (length objects)
                              ("Generated " ++ str_of_nat (length objects)
                                            ++ " object(s)")
                              (trained m))
                           200)
                end
            | _ => ret (mkResponse (ErrorBody (no_attribute text "lower")) 500)
            end
      end
  end.

(** The numeral [parse] applies [int] to, if the text takes it to the
    quantity rule or to the stacking rule. *)
Definition int_argument (text : str) : option str :=
  let text_lower := Py.lower text in
  if is_multi_object text_lower then
    if Py.contains " and " text_lower then None
    else
      match search_groups quantity_pattern text_lower with
      | Some (group1, _) => Some group1
      | None =>
          match find (fun '(composite_name, _) =>
                        Py.contains composite_name text_lower)
                     composite_shapes with
          | Some _ => None
          | None =>
              match search_groups stack_pattern text_lower with
              | Some (group1, _) => Some group1
              | None => None
              end
          end
      end
  else None.

(** The content of [training_data.json] as the constructor meets it: no
    file, a file [json.load] raises on (with the message), or the decoded
    value. *)
Definition TrainingFile : Type := option (str + json).

(** [len(v)] of a decoded value. *)
Definition len (v : json) : str + nat :=
  match v with
  | JStr s => inr (length s)
  | JArr items => inr (length items)
  | JObj fields => inr (length fields)
  | _ => inl ("object of type '" ++ type_name v ++ "' has no len()")
  end.

Section ConstructionExn.

Variable fit : list json -> Estimators -> Estimators * option str.

(** [load_training_data] on any file.  A decoded value that is not a list
    and has at least 5 elements (a string or an object) makes
    [train_models] raise on [d["text"]], whose [d] is then a string; a
    shorter one is left in [training_data] untrained, and [__init__]
    replaces it by the default data before anything reads it. *)
Definition load_training_data_exn (m : TextToCADModel) (file : TrainingFile)
  : str + TextToCADModel :=
  match file with
  | None => inr m
  | Some (inl error) => inl error
  | Some (inr (JArr data)) => load_training_data fit m (Some data)
  | Some (inr v) =>
      match len v with
      | inl error => inl error
      | inr n =>
          if (5 <=? n)%nat
          then inl ("string indices must be integers, not 'str'" : str)
          else inr m
      end
  end.

(** [TextToCADModel()] on any file. *)
Definition new_model_exn (unfitted : Estimators) (file : TrainingFile)
  : str + TextToCADModel :=
  let m := mkModel unfitted [] false in
  match load_training_data_exn m file with
  | inl err => inl err
  | inr m =>
      if negb (trained m) then init_default_training fit m else inr m
  end.

End ConstructionExn.

(** A text whose count has one digit more than [int] accepts. *)
Definition overlong_count_text : str := repeat "1"%char 4301 ++ " cubes".


(** [/parse-text] reaches [int] with a numeral beyond the limit. *)
Definition overlong_count (request_json : RequestJson) : Prop :=
  exists fields text number,
    request_json = inr (JObj fields)
    /\ lookup "text" fields = Some (JStr text)
    /\ int_argument text = Some number
    /\ (max_str_digits < length number)%nat.

(** The call returns [v] (with some calls of the predictor). *)
Definition returns {A} (r : str + Traced A) (v : A) : Prop :=
  exists calls, r = inr (v, calls).

(** The text takes [parse] to the stacking rule, which captures the
    numeral and the word. *)
Definition stacking_match (text number word : str) : Prop :=
  let text_lower := Py.lower text in
  Py.contains " and " text_lower = false
  /\ search_groups quantity_pattern text_lower = None
  /\ find (fun '(composite_name, _) =>
             Py.contains composite_name text_lower) composite_shapes = None
  /\ search_groups stack_pattern text_lower = Some (number, word).

(* ================================================================== *)
(** * Properties *)
(* ================================================================== *)

(** ** Strings *)

Lemma startswith_spec (p s : str) :
  Py.startswith p s = true <-> exists t, s = p ++ t.
Proof.
  revert s; induction p as [|a p IH]; intros s; simpl.
  - split; [intros _; now exists s | reflexivity].
  - destruct s as [|b s].
    + split; [discriminate | intros [t Ht]; discriminate].
    + rewrite andb_true_iff. unfold Py.eqb_char. rewrite Ascii.eqb_eq, IH.
      split.
      * intros [-> [t ->]]. now exists t.
      * intros [t Ht]. injection Ht as -> ->. split; [reflexivity | now exists t].
Qed.

Lemma contains_spec (p s : str) :
  Py.contains p s = true <-> occurs p s.
Proof.
  induction s as [|c s IH].
  - simpl. destruct (Py.startswith p []) eqn:E.
    + split; [intros _ | reflexivity].
      apply startswith_spec in E. destruct E as [t Ht]. now exists [], t.
    + split; [discriminate |].
      intros (pre & post & H). destruct pre; [|discriminate].
      simpl in H. assert (Py.startswith p [] = true) as E'
        by (apply startswith_spec; now exists post).
      congruence.
  - simpl. destruct (Py.startswith p (c :: s)) eqn:E.
    + split; [intros _ | reflexivity].
      apply startswith_spec in E. destruct E as [t Ht]. now exists [], t.
    + rewrite IH. split.
      * intros (pre & post & ->). now exists (c :: pre), post.
      * intros (pre & post & H). destruct pre as [|d pre].
        -- simpl in H. assert (Py.startswith p (c :: s) = true) as E'
             by (apply startswith_spec; now exists post).
           congruence.
        -- injection H as -> ->. now exists pre, post.
Qed.

Lemma contains_false (p s : str) :
  Py.contains p s = false <-> ~ occurs p s.
Proof.
  rewrite <- contains_spec. destruct (Py.contains p s); split; intros H;
    try reflexivity; try discriminate; try (intros H'; discriminate).
  now contradiction H.
Qed.

Lemma lower_app (a b : str) : Py.lower (a ++ b) = Py.lower a ++ Py.lower b.
Proof. apply map_app. Qed.

(** Lower-casing keeps every occurrence of a lower-case word. *)
Lemma occurs_lower (p s : str) :
  Py.lower p = p -> occurs p s -> occurs p (Py.lower s).
Proof.
  intros Hp (pre & post & ->).
  exists (Py.lower pre), (Py.lower post).
  now rewrite !lower_app, Hp.
Qed.

(** ** The predictor *)

Lemma max_lower_bound (a b : Q) : a <= Py.max a b.
Proof.
  unfold Py.max. destruct (Qle_bool b a) eqn:E.
  - apply Qle_refl.
  - apply Qlt_le_weak, Qnot_le_lt. intros H.
    apply Qle_bool_iff in H. congruence.
Qed.

Lemma first_color_hit (entries : list (str * Z)) (t : str) :
  forall i name rgb,
    nth_error entries i = Some (name, rgb) ->
    Py.contains name t = true ->
    (forall j name' rgb', (j < i)%nat ->
       nth_error entries j = Some (name', rgb') ->
       Py.contains name' t = false) ->
    first_color entries t = rgb.
Proof.
  induction entries as [|[k v] entries IH]; intros i name rgb Hi Hin Hbefore.
  - destruct i; discriminate.
  - destruct i as [|i]; simpl in *.
    + injection Hi as -> ->. now rewrite Hin.
    + rewrite (Hbefore 0%nat k v); [| lia | reflexivity].
      apply (IH i name rgb Hi Hin).
      intros j name' rgb' Hj Hnth.
      apply (Hbefore (S j) name' rgb'); [lia | exact Hnth].
Qed.

Lemma first_color_miss (entries : list (str * Z)) (t : str) :
  (forall name rgb, In (name, rgb) entries -> Py.contains name t = false) ->
  first_color entries t = default_color.
Proof.
  induction entries as [|[k v] entries IH]; intros H; simpl.
  - reflexivity.
  - rewrite (H k v) by now left.
    apply IH. intros name rgb Hin. apply (H name rgb). now right.
Qed.

(** A colour name written in lower case in the text is found. *)
Lemma color_keyword_in_text (name : str) (rgb : Z) (text : str) :
  In (name, rgb) color_map -> occurs name text ->
  occurs name (Py.lower text).
Proof.
  intros Hin. apply occurs_lower. simpl in Hin.
  repeat (destruct Hin as [Hin | Hin];
          [injection Hin as <- _; reflexivity |]).
  contradiction.
Qed.

Lemma predict_color (m : TextToCADModel) (text : str) :
  color (predict m text) = find_similar_color text.
Proof. unfold predict. now destruct (trained m). Qed.

Lemma rule_based_dimensions (text : str) :
  0.1 <= size (rule_based_parse text) /\
  0.1 <= radius (rule_based_parse text) /\
  0.1 <= height (rule_based_parse text).
Proof.
  cbv [rule_based_parse size radius height].
  repeat split; split_ifs; discriminate.
Qed.

Lemma predict_size_positive (m : TextToCADModel) (text : str) :
  0 < size (predict m text).
Proof.
  apply Qlt_le_trans with (y := 0.1); [reflexivity |].
  unfold predict. destruct (trained m); simpl negb; cbv iota.
  - apply max_lower_bound.
  - apply rule_based_dimensions.
Qed.

(** C6: for every text the predictor's size, radius and height are at
    least 0.1, both when the model is trained (the estimators' raw outputs
    are clamped below at 0.1) and in the rule-based fallback. *)
Theorem predict_dimensions_at_least_minimum
        (m : TextToCADModel) (text : str) :
  0.1 <= size (predict m text) /\
  0.1 <= radius (predict m text) /\
  0.1 <= height (predict m text).
Proof.
  unfold predict. destruct (trained m) eqn:Htrained; simpl negb; cbv iota.
  - (* trained: every dimension is [max(0.1, raw)] *)
    cbv [size radius height]. repeat split; apply max_lower_bound.
  - (* untrained: the constants of the rule-based fallback *)
    apply rule_based_dimensions.
Qed.

(** C7: the colour the predictor returns is that of the first keyword, in
    the order of [color_map], that occurs in the lower-cased text, whether
    the model is trained or not; when no keyword occurs it is the default
    colour 0x667eea. *)
Theorem predict_color_first_keyword (m : TextToCADModel) (text : str) :
  (forall i name rgb,
      nth_error color_map i = Some (name, rgb) ->
      occurs name (Py.lower text) ->
      (forall j name' rgb', (j < i)%nat ->
         nth_error color_map j = Some (name', rgb') ->
         ~ occurs name' (Py.lower text)) ->
      color (predict m text) = rgb)
  /\
  ((forall name rgb, In (name, rgb) color_map ->
      ~ occurs name (Py.lower text)) ->
   color (predict m text) = 0x667eea%Z).
Proof.
  rewrite predict_color. unfold find_similar_color. split.
  - intros i name rgb Hi Hocc Hbefore.
    apply (first_color_hit color_map (Py.lower text) i name rgb Hi).
    + now apply contains_spec.
    + intros j name' rgb' Hj Hnth. apply contains_false. eauto.
  - intros Hnone. apply first_color_miss.
    intros name rgb Hin. apply contains_false. eauto.
Qed.

Lemma predict_color_first_keyword_witness :
  color (predict sphere_only_model "a blue and RED ball") = 0xff4444%Z /\
  color (predict untrained_model "Tall tube") = 0x667eea%Z.
Proof.
  split.
  - apply (proj1 (predict_color_first_keyword
                    sphere_only_model "a blue and RED ball")
                 0%nat ("red" : str) 0xff4444%Z).
    + reflexivity.
    + exists ("a blue and " : str), (" ball" : str). reflexivity.
    + intros j name' rgb' Hj. lia.
  - apply (proj2 (predict_color_first_keyword untrained_model "Tall tube")).
    intros name rgb Hin. apply contains_false. each_entry Hin.
Defined.

(** ** The HTTP boundary *)

(** C8: when the body is a JSON object whose ["text"] field is missing or
    is the empty string, [/parse-text] answers 400 with the body
    [{"error": "No text provided"}] and the predictor is not called. *)
Theorem parse_text_rejects_empty_text
        (m : TextToCADModel) (fields : list (str * json)) :
  lookup "text" fields = None \/ lookup "text" fields = Some (JStr []) ->
  value (parse_text m (inr (JObj fields)))
    = mkResponse (ErrorBody "No text provided") 400
  /\ predictor_calls (parse_text m (inr (JObj fields))) = [].
Proof.
  intros [H | H]; unfold parse_text, get; rewrite H; split; reflexivity.
Qed.

Lemma parse_text_rejects_empty_text_witness :
  (value (parse_text sphere_only_model (inr (JObj [])))
     = mkResponse (ErrorBody "No text provided") 400
   /\ predictor_calls (parse_text sphere_only_model (inr (JObj []))) = [])
  /\
  (value (parse_text untrained_model
            (inr (JObj [("text" : str, JStr [])])))
     = mkResponse (ErrorBody "No text provided") 400
   /\ predictor_calls (parse_text untrained_model
                         (inr (JObj [("text" : str, JStr [])]))) = []).
Proof.
  split.
  - apply (parse_text_rejects_empty_text sphere_only_model []).
    left. reflexivity.
  - apply (parse_text_rejects_empty_text untrained_model
             [("text" : str, JStr [])]).
    right. reflexivity.
Defined.

(** The predictor is reached only through a non-empty ["text"] string. *)
Lemma parse_text_calls_need_text
      (m : TextToCADModel) (request_json : RequestJson) :
  predictor_calls (parse_text m request_json) <> [] ->
  exists fields text,
    request_json = inr (JObj fields) /\
    lookup "text" fields = Some (JStr text) /\ text <> [].
Proof.
  unfold parse_text, get. intros H.
  destruct request_json as [e | data]; [now contradiction H |].
  destruct data as [| b | n | q | s | items | fields];
    try (now contradiction H).
  exists fields.
  destruct (lookup "text" fields) as [v |] eqn:E; [| now contradiction H].
  destruct (truthy v) eqn:T; simpl negb in H; cbv iota in H;
    [| now contradiction H].
  destruct v as [| b | n | q | s | items | fields'];
    try (now contradiction H).
  exists s. repeat split. destruct s; [discriminate T | discriminate].
Qed.

(** ** The training corpus *)

Section Corpus.

Variable fit : list json -> Estimators -> Estimators * option str.

Lemma train_models_corpus (m : TextToCADModel) :
  training_data (fst (train_models fit m)) = training_data m.
Proof.
  unfold train_models.
  destruct (length (training_data m) <? 5)%nat; [reflexivity |].
  destruct (fit (training_data m) (estimators m)) as [e [err |]];
    reflexivity.
Qed.

(** What a retrain request does to the corpus. *)
Lemma retrain_corpus (s : Server) (request_json : RequestJson) :
  training_data (model (fst (retrain fit s request_json)))
    = training_data (model s)
  \/ exists example,
      training_data (model (fst (retrain fit s request_json)))
        = training_data (model s) ++ [example].
Proof.
  unfold retrain.
  destruct request_json as [e | data]; [now left |].
  destruct (get data "example" JNull) as [e | new_example]; [now left |].
  destruct (truthy new_example); [| now left].
  right. exists new_example.
  pose proof (train_models_corpus (append_example (model s) new_example))
    as H.
  destruct (train_models fit (append_example (model s) new_example))
    as [m' [e |]]; simpl in *; exact H.
Qed.

Lemma serve_corpus (s : Server) (r : Request) :
  exists added,
    training_data (model (fst (serve fit s r)))
      = training_data (model s) ++ added.
Proof.
  destruct r as [request_json | | request_json]; simpl.
  - exists []. now rewrite app_nil_r.
  - exists []. now rewrite app_nil_r.
  - destruct (retrain_corpus s request_json) as [H | [example H]].
    + exists []. now rewrite app_nil_r.
    + now exists [example].
Qed.

Lemma session_corpus (rs : list Request) :
  forall s, exists added,
    training_data (model (session fit s rs))
      = training_data (model s) ++ added.
Proof.
  induction rs as [| r rs IH]; intros s.
  - exists []. simpl. now rewrite app_nil_r.
  - destruct (serve_corpus s r) as [a1 H1].
    destruct (IH (fst (serve fit s r))) as [a2 H2].
    exists (a1 ++ a2). unfold session in *. simpl.
    now rewrite H2, H1, app_assoc.
Qed.

End Corpus.

(** C9: a retrain request leaves the corpus as it is or appends exactly
    one example (it leaves it as it is when the body carries no
    ["example"]), and after any sequence of requests the corpus is the
    initial one followed by the appended examples: nothing is removed. *)
Theorem corpus_never_shrinks
        (fit : list json -> Estimators -> Estimators * option str)
        (s : Server) :
  (forall request_json,
      training_data (model (fst (retrain fit s request_json)))
        = training_data (model s)
      \/ exists example,
          training_data (model (fst (retrain fit s request_json)))
            = training_data (model s) ++ [example])
  /\
  (forall fields,
      lookup "example" fields = None ->
      training_data (model (fst (retrain fit s (inr (JObj fields)))))
        = training_data (model s))
  /\
  (forall rs,
      exists added,
        training_data (model (session fit s rs))
          = training_data (model s) ++ added
        /\ (length (training_data (model s))
            <= length (training_data (model (session fit s rs))))%nat).
Proof.
  split; [| split].
  - intros request_json. apply retrain_corpus.
  - intros fields H. unfold retrain, get. now rewrite H.
  - intros rs. destruct (session_corpus fit rs s) as [added H].
    exists added. split; [exact H |].
    rewrite H, length_app. lia.
Qed.

Lemma corpus_never_shrinks_witness :
  training_data
    (model (fst (retrain refit_unchanged fresh_server (inr (JObj [])))))
  = training_data (model fresh_server).
Proof.
  apply (proj1 (proj2 (corpus_never_shrinks refit_unchanged fresh_server))
               []).
  reflexivity.
Defined.

(** ** The multi-object parser on the inputs of the specification *)

(** C1: the parser returns a single object for ["cube and sphere"], the
    prediction for the whole text: no detection pattern matches it (the
    conjunction indicator asks for an article after "and").  The
    conjunction rule of the extraction, had it been reached, yields the
    two objects at x = 0 and x = 2. *)
Theorem cube_and_sphere_single_object (m : TextToCADModel) :
  is_multi_object (Py.lower "cube and sphere") = false
  /\ value (parse m "cube and sphere") = [predict m "cube and sphere"]
  /\ value (extract_multiple_objects m "cube and sphere")
     = [set_position (predict m "cube") (mkPosition 0 0 0);
        set_position (predict m "sphere") (mkPosition 2 0 0)].
Proof. repeat split. Qed.

(** The same phrase with articles is detected and split. *)
Lemma a_cube_and_a_sphere (m : TextToCADModel) :
  value (parse m "a cube and a sphere")
  = [set_position (predict m "a cube") (mkPosition 0 0 0);
     set_position (predict m "a sphere") (mkPosition 2 0 0)].
Proof. reflexivity. Qed.

(** C2: the parser returns a single object for ["house"], the prediction
    for the whole text: no detection pattern matches a composite name.
    The composite rule of the extraction, had it been reached, yields the
    walls (size and radius times 3.0, at the origin) and the roof (times
    1.5, at y = 2), heights unscaled. *)
Theorem house_single_object (m : TextToCADModel) :
  is_multi_object (Py.lower "house") = false
  /\ value (parse m "house") = [predict m "house"]
  /\ exists walls roof,
      value (extract_multiple_objects m "house") = [walls; roof]
      /\ size walls = size (predict m "cube walls") * 3.0
      /\ radius walls = radius (predict m "cube walls") * 3.0
      /\ height walls = height (predict m "cube walls")
      /\ position walls = mkPosition 0 0 0
      /\ size roof = size (predict m "cone roof") * 1.5
      /\ radius roof = radius (predict m "cone roof") * 1.5
      /\ height roof = height (predict m "cone roof")
      /\ position roof = mkPosition 0 2 0.
Proof.
  repeat split.
  eexists. eexists. split; [reflexivity |]. repeat split.
Qed.

(** With a detection indicator in the text the composite rule is reached. *)
Lemma house_with_a_garden (m : TextToCADModel) :
  value (parse m "house with a garden")
  = value (extract_multiple_objects m "house").
Proof. reflexivity. Qed.

(** C3: for ["stack 3 cube"] the quantity rule, which is tried before the
    stacking rule, matches "3 cube" (the stacking pattern would match as
    well): the three objects form a row along X at -3, -1, 1 and all have
    Y = 0, so the Y offsets do not increase. *)
Theorem stack_3_cube_is_a_row (m : TextToCADModel) :
  search_groups quantity_pattern (Py.lower "stack 3 cube")
    = Some ("3" : str, "cube" : str)
  /\ search_groups stack_pattern (Py.lower "stack 3 cube")
     = Some ("3" : str, "cube" : str)
  /\ value (parse m "stack 3 cube")
     = [set_position (predict m "cube") (mkPosition (-3) 0 0);
        set_position (predict m "cube") (mkPosition (-1) 0 0);
        set_position (predict m "cube") (mkPosition 1 0 0)]
  /\ map (fun o => pos_y (position o)) (value (parse m "stack 3 cube"))
     = [0; 0; 0].
Proof.
  split; [reflexivity | split; [reflexivity |]].
  assert (value (parse m "stack 3 cube")
          = map (set_position (predict m "cube"))
                [mkPosition (-3) 0 0; mkPosition (-1) 0 0;
                 mkPosition 1 0 0]) as Hrow by reflexivity.
  split; [exact Hrow |].
  rewrite Hrow. reflexivity.
Qed.

(** The stacking rule is reached by a word the quantity rule does not
    know; the offsets then accumulate twice the predicted size. *)
Lemma stack_3_pyramid (m : TextToCADModel) :
  let o := predict m "pyramid" in
  value (parse m "stack 3 pyramid")
  = [set_position o (mkPosition 0 0 0);
     set_position o (mkPosition 0 (0 + size o * 2) 0);
     set_position o (mkPosition 0 (0 + size o * 2 + size o * 2) 0)]
  /\ 0 < 0 + size o * 2 < 0 + size o * 2 + size o * 2.
Proof.
  intros o. split; [reflexivity |].
  pose proof (predict_size_positive m "pyramid") as Hpos. fold o in Hpos.
  assert (0 < size o * 2) as H2
    by (apply Qmult_lt_0_compat; [exact Hpos | reflexivity]).
  split.
  - rewrite Qplus_0_l. exact H2.
  - rewrite <- (Qplus_0_r (0 + size o * 2)) at 1.
    apply Qplus_lt_r. exact H2.
Qed.

(** Counterexample to C4 as stated: with a trained model whose classifier
    does not answer [cube] for the text "cube", the three objects are not
    cubes. *)
Lemma three_cubes_not_always_cubes :
  ~ three_cubes_all_cubes sphere_only_model.
Proof.
  intros (_ & H & _). inversion H as [| o l Hshape _]. discriminate Hshape.
Qed.

(** C4 (amended): ["3 cubes"] yields exactly three objects at
    x = -3, -1, 1 with y = z = 0, each the prediction for the text "cube"
    put at that position; their shape is [cube] when the model is not
    trained. *)
Theorem three_cubes_row (m : TextToCADModel) :
  let objects := value (parse m "3 cubes") in
  length objects = 3%nat
  /\ map position objects
     = [mkPosition (-3) 0 0; mkPosition (-1) 0 0; mkPosition 1 0 0]
  /\ objects = map (set_position (predict m "cube"))
                   [mkPosition (-3) 0 0; mkPosition (-1) 0 0;
                    mkPosition 1 0 0]
  /\ (trained m = false -> Forall (fun o => shape o = "cube") objects).
Proof.
  cbv zeta.
  split; [reflexivity | split; [reflexivity | split; [reflexivity |]]].
  intros H.
  change (value (parse m "3 cubes"))
    with (map (set_position (predict m "cube"))
              [mkPosition (-3) 0 0; mkPosition (-1) 0 0; mkPosition 1 0 0]).
  assert (shape (predict m "cube") = "cube") as Hshape
    by (unfold predict; rewrite H; reflexivity).
  repeat constructor; exact Hshape.
Qed.

Lemma three_cubes_row_witness :
  Forall (fun o => shape o = "cube")
         (value (parse untrained_model "3 cubes")).
Proof.
  apply (proj2 (proj2 (proj2 (three_cubes_row untrained_model)))).
  reflexivity.
Defined.

(** ** The matcher against the language of a pattern *)

Lemma orelse_some {A} (a b : option A) (x : A) :
  Re.orelse a b = Some x -> a = Some x \/ (a = None /\ b = Some x).
Proof. destruct a; simpl; intros H; [left | right]; auto. Qed.

Lemma orelse_not_none_l {A} (a b : option A) :
  a <> None -> Re.orelse a b <> None.
Proof. destruct a; simpl; congruence. Qed.

Lemma orelse_not_none_r {A} (a b : option A) :
  b <> None -> Re.orelse a b <> None.
Proof. destruct a; simpl; congruence. Qed.

Lemma plus_here_sound (p : ascii -> bool) (k : str -> option Re.captures) :
  forall s res,
    Re.plus_here p s k = Some res ->
    exists s1 s2,
      s = s1 ++ s2 /\ s1 <> [] /\ forallb p s1 = true /\ k s2 = Some res.
Proof.
  induction s as [| c s IH]; intros res H; simpl in H; [discriminate |].
  destruct (p c) eqn:Hc; [| discriminate].
  apply orelse_some in H. destruct H as [H | [_ H]].
  - destruct (IH res H) as (s1 & s2 & -> & _ & Hall & Hk).
    exists (c :: s1), s2. repeat split; try discriminate; try assumption.
    simpl. now rewrite Hc.
  - exists [c], s. repeat split; try discriminate; try assumption.
    simpl. now rewrite Hc.
Qed.

Lemma match_here_sound (r : Re.regex) :
  forall s caps k res,
    Re.match_here r s caps k = Some res ->
    exists s1 s2 caps',
      s = s1 ++ s2 /\ Matches r s1 /\ k s2 caps' = Some res.
Proof.
  induction r as [| c | p | p | r1 IH1 r2 IH2 | r1 IH1 r2 IH2 | r1 IH1
                  | n r1 IH1];
    intros s caps k res H; simpl in H.
  - exists [], s, caps. auto with re.
  - destruct s as [| c' s]; [discriminate |].
    destruct (Py.eqb_char c c') eqn:E; [| discriminate].
    apply Ascii.eqb_eq in E. subst c'.
    exists [c], s, caps. auto with re.
  - destruct s as [| c' s]; [discriminate |].
    destruct (p c') eqn:E; [| discriminate].
    exists [c'], s, caps. auto with re.
  - apply plus_here_sound in H.
    destruct H as (s1 & s2 & -> & Hne & Hall & Hk).
    exists s1, s2, caps. auto with re.
  - apply IH1 in H. destruct H as (s1 & s2 & caps1 & -> & M1 & H).
    apply IH2 in H. destruct H as (s3 & s4 & caps2 & -> & M2 & H).
    exists (s1 ++ s3), s4, caps2. rewrite app_assoc. auto with re.
  - apply orelse_some in H. destruct H as [H | [_ H]].
    + apply IH1 in H. destruct H as (s1 & s2 & caps1 & -> & M1 & H).
      exists s1, s2, caps1. auto with re.
    + apply IH2 in H. destruct H as (s1 & s2 & caps1 & -> & M1 & H).
      exists s1, s2, caps1. auto with re.
  - apply orelse_some in H. destruct H as [H | [_ H]].
    + apply IH1 in H. destruct H as (s1 & s2 & caps1 & -> & M1 & H).
      exists s1, s2, caps1. auto with re.
    + exists [], s, caps. auto with re.
  - apply IH1 in H. destruct H as (s1 & s2 & caps1 & -> & M1 & H).
    eexists s1, s2, _. split; [reflexivity |]. split; [auto with re |].
    exact H.
Qed.

Lemma plus_here_complete (p : ascii -> bool) (k : str -> option Re.captures)
      (s2 : str) :
  k s2 <> None ->
  forall s1, s1 <> [] -> forallb p s1 = true ->
             Re.plus_here p (s1 ++ s2) k <> None.
Proof.
  intros Hk. induction s1 as [| c s1 IH]; intros Hne Hall; [easy |].
  simpl in *. apply andb_true_iff in Hall. destruct Hall as [Hc Hall].
  rewrite Hc. destruct s1 as [| d s1].
  - apply orelse_not_none_r. exact Hk.
  - apply orelse_not_none_l. apply IH; [discriminate | exact Hall].
Qed.

Lemma match_here_complete (r : Re.regex) (s1 : str) :
  Matches r s1 ->
  forall s2 caps k,
    (forall caps', k s2 caps' <> None) ->
    Re.match_here r (s1 ++ s2) caps k <> None.
Proof.
  induction 1 as [| c | p c Hc | p s Hne Hall
                  | r1 r2 s1 s3 M1 IH1 M2 IH2
                  | r1 r2 s M IH | r1 r2 s M IH | r | r s M IH
                  | n r s M IH];
    intros s2 caps k Hk; simpl.
  - apply Hk.
  - unfold Py.eqb_char. rewrite Ascii.eqb_refl. apply Hk.
  - rewrite Hc. apply Hk.
  - apply plus_here_complete; auto.
  - rewrite <- app_assoc. apply IH1. intros caps'. apply IH2. exact Hk.
  - apply orelse_not_none_l. apply IH. exact Hk.
  - apply orelse_not_none_r. apply IH. exact Hk.
  - apply orelse_not_none_r. apply Hk.
  - apply orelse_not_none_l. apply IH. exact Hk.
  - apply IH. intros caps'. apply Hk.
Qed.

Lemma search_sound (r : Re.regex) :
  forall s caps,
    Re.search r s = Some caps ->
    exists pre mid post, s = pre ++ mid ++ post /\ Matches r mid.
Proof.
  induction s as [| c s IH]; intros caps H; simpl in H.
  - destruct (Re.match_at r []) eqn:E; [| discriminate].
    apply match_here_sound in E. destruct E as (s1 & s2 & _ & Hs & M & _).
    exists [], s1, s2. auto.
  - destruct (Re.match_at r (c :: s)) eqn:E.
    + apply match_here_sound in E. destruct E as (s1 & s2 & _ & Hs & M & _).
      exists [], s1, s2. auto.
    + apply IH in H. destruct H as (pre & mid & post & -> & M).
      exists (c :: pre), mid, post. auto.
Qed.

Lemma search_complete (r : Re.regex) (mid post : str) :
  Matches r mid ->
  forall pre, Re.search r (pre ++ mid ++ post) <> None.
Proof.
  intros M.
  assert (Re.match_at r (mid ++ post) <> None) as Hat
    by (apply match_here_complete; [exact M | discriminate]).
  assert (Re.search r (mid ++ post) <> None) as H0.
  { destruct (mid ++ post); simpl;
      destruct (Re.match_at r _); congruence. }
  induction pre as [| c pre IH]; [exact H0 |].
  simpl. destruct (Re.match_at r (c :: pre ++ mid ++ post));
    [discriminate | exact IH].
Qed.

(** [re.search] finds a match exactly when some substring of the text is
    in the language of the pattern. *)
Lemma found_spec (r : Re.regex) (s : str) :
  Re.found r s = true <->
  exists pre mid post, s = pre ++ mid ++ post /\ Matches r mid.
Proof.
  unfold Re.found. split.
  - destruct (Re.search r s) eqn:E; [| discriminate].
    intros _. eapply search_sound. exact E.
  - intros (pre & mid & post & -> & M).
    pose proof (search_complete r mid post M pre) as H.
    destruct (Re.search r (pre ++ mid ++ post)); congruence.
Qed.

Lemma Matches_lit (s t : str) : Matches (Re.lit s) t <-> t = s.
Proof.
  revert t. induction s as [| c s IH]; intros t; simpl.
  - split; [intros H; now inversion H | intros ->; constructor].
  - split.
    + intros H. inversion H as [| | | | r1 r2 s1 s2 M1 M2 | | | | |]; subst.
      inversion M1; subst. apply IH in M2. now subst.
    + intros ->. change (c :: s) with ([c] ++ s).
      constructor; [constructor | now apply IH].
Qed.

Lemma Matches_alts (l : list str) (t : str) :
  l <> [] -> (Matches (Re.alts l) t <-> In t l).
Proof.
  induction l as [| a l IH]; intros Hne; [easy |].
  destruct l as [| b l].
  - simpl. rewrite Matches_lit. intuition.
  - change (Re.alts (a :: b :: l))
      with (Re.Alt (Re.lit a) (Re.alts (b :: l))).
    split.
    + intros H. inversion H; subst.
      * left. symmetry. now apply Matches_lit.
      * right. apply IH; [discriminate | assumption].
    + intros [<- | H].
      * apply M_AltL. now apply Matches_lit.
      * apply M_AltR. apply IH; [discriminate | assumption].
Qed.

(** The count indicator matches exactly the texts that contain a number,
    white space and one of the four plurals. *)
Lemma count_indicator_spec (text : str) :
  Re.found count_indicator text = true <->
  exists pre digits spaces noun post,
    text = pre ++ digits ++ spaces ++ noun ++ post
    /\ all_of Py.is_digit digits /\ all_of Py.is_space spaces
    /\ In noun detected_plurals.
Proof.
  rewrite found_spec. split.
  - intros (pre & mid & post & -> & M).
    cbv beta iota delta [count_indicator seqs fold_right] in M.
    inversion M as [| | | | r1 r2 ds rest1 Md M1 | | | | |]; subst.
    inversion M1 as [| | | | r1 r2 ws rest2 Mw M2 | | | | |]; subst.
    inversion M2 as [| | | | r1 r2 noun rest3 Mg M3 | | | | |]; subst.
    inversion M3; subst. inversion Mg as [| | | | | | | | | n r s Mn]; subst.
    inversion Md; subst. inversion Mw; subst.
    apply (Matches_alts detected_plurals) in Mn; [| discriminate].
    exists pre, ds, ws, noun, post. rewrite app_nil_r.
    rewrite <- !app_assoc. unfold all_of. auto.
  - intros (pre & ds & ws & noun & post & -> & [Hd1 Hd2] & [Hw1 Hw2] & Hn).
    exists pre, (ds ++ ws ++ noun ++ []), post. split.
    + rewrite app_nil_r, <- !app_assoc. reflexivity.
    + cbv beta iota delta [count_indicator seqs fold_right].
      apply M_Seq; [now apply M_Plus |].
      apply M_Seq; [now apply M_Plus |].
      apply M_Seq; [| apply M_Eps].
      apply M_Group.
      apply (Matches_alts detected_plurals); [discriminate | exact Hn].
Qed.

(** ** The matcher on a block of characters of one class *)

(** Greedy: if the rest of the pattern succeeds after the whole block, that
    is the match. *)
Lemma plus_here_greedy (p : ascii -> bool) (k : str -> option Re.captures)
      (rest : str) (res : Re.captures) :
  stops p rest -> k rest = Some res ->
  forall block, all_of p block ->
                Re.plus_here p (block ++ rest) k = Some res.
Proof.
  intros Hstop Hk. induction block as [| c block IH]; intros [Hne Hall];
    [easy |].
  simpl in *. apply andb_true_iff in Hall. destruct Hall as [Hc Hall].
  rewrite Hc. destruct block as [| d block].
  - simpl. destruct rest as [| e rest]; simpl in *.
    + exact Hk.
    + rewrite Hstop. exact Hk.
  - rewrite IH; [reflexivity |]. split; [discriminate | exact Hall].
Qed.

(** Failure: the rest of the pattern fails after every part of the block. *)
Lemma plus_here_none (p : ascii -> bool) (k : str -> option Re.captures)
      (rest : str) :
  stops p rest ->
  (forall part, forallb p part = true -> k (part ++ rest) = None) ->
  forall block, forallb p block = true ->
                Re.plus_here p (block ++ rest) k = None.
Proof.
  intros Hstop Hk. induction block as [| c block IH]; intros Hall; simpl.
  - destruct rest as [| e rest]; simpl in *; [reflexivity |].
    now rewrite Hstop.
  - simpl in Hall. apply andb_true_iff in Hall. destruct Hall as [Hc Hall].
    rewrite Hc, (IH Hall), (Hk block Hall). reflexivity.
Qed.

Lemma rejects_sound (r : Re.regex) (c : ascii) :
  rejects r c = true ->
  forall s caps k, Re.match_here r (c :: s) caps k = None.
Proof.
  induction r as [| a | p | p | r1 IH1 r2 IH2 | r1 IH1 r2 IH2 | r1 IH1
                  | n r1 IH1];
    simpl; intros H s caps k; try discriminate.
  - apply negb_true_iff in H. now rewrite H.
  - apply negb_true_iff in H. now rewrite H.
  - apply negb_true_iff in H. now rewrite H.
  - now apply IH1.
  - apply andb_true_iff in H. destruct H as [H1 H2].
    now rewrite IH1, IH2.
  - now apply IH1.
Qed.

(** A block none of whose suffixes starts a match is skipped by the
    search. *)
Lemma search_skip (p : ascii -> bool) (r : Re.regex) (rest : str) :
  (forall part, all_of p part -> Re.match_at r (part ++ rest) = None) ->
  forall block, forallb p block = true ->
                Re.search r (block ++ rest) = Re.search r rest.
Proof.
  intros Hat. induction block as [| c block IH]; intros Hall;
    [reflexivity |].
  pose proof (Hat (c :: block)) as H0.
  change ((c :: block) ++ rest) with (c :: (block ++ rest)) in *.
  change (Re.search r (c :: block ++ rest))
    with (match Re.match_at r (c :: block ++ rest) with
          | Some caps => Some caps
          | None => Re.search r (block ++ rest)
          end).
  rewrite H0 by (split; [discriminate | exact Hall]).
  simpl in Hall. apply andb_true_iff in Hall. now apply IH.
Qed.

Lemma search_skip_rejected (p : ascii -> bool) (r : Re.regex) (rest : str) :
  (forall c, p c = true -> rejects r c = true) ->
  forall block, forallb p block = true ->
                Re.search r (block ++ rest) = Re.search r rest.
Proof.
  intros Hrej. apply search_skip. intros part [Hne Hall].
  destruct part as [| c part]; [easy |].
  simpl in Hall. apply andb_true_iff in Hall. destruct Hall as [Hc _].
  apply rejects_sound. now apply Hrej.
Qed.

Lemma in_all_chars (c : ascii) : In c all_chars.
Proof.
  unfold all_chars. rewrite <- (ascii_nat_embedding c).
  apply in_map. apply in_seq. pose proof (nat_ascii_bounded c). lia.
Qed.

Lemma by_exhaustion (P Q : ascii -> bool) :
  forallb (fun c => implb (P c) (Q c)) all_chars = true ->
  forall c, P c = true -> Q c = true.
Proof.
  intros H c Hc. rewrite forallb_forall in H.
  specialize (H c (in_all_chars c)). now rewrite Hc in H.
Qed.

Lemma digit_not_space (c : ascii) :
  Py.is_digit c = true -> Py.is_space c = false.
Proof.
  intros H. apply negb_true_iff. revert c H.
  apply by_exhaustion. vm_compute. reflexivity.
Qed.

Lemma space_not_digit (c : ascii) :
  Py.is_space c = true -> Py.is_digit c = false.
Proof.
  intros H. apply negb_true_iff. revert c H.
  apply by_exhaustion. vm_compute. reflexivity.
Qed.

Lemma lower_digit (c : ascii) :
  Py.is_digit c = true -> Py.lower_char c = c.
Proof.
  intros H. apply Ascii.eqb_eq. revert c H.
  apply (by_exhaustion Py.is_digit (fun c => Ascii.eqb (Py.lower_char c) c)).
  vm_compute. reflexivity.
Qed.

Lemma lower_space (c : ascii) :
  Py.is_space c = true -> Py.lower_char c = c.
Proof.
  intros H. apply Ascii.eqb_eq. revert c H.
  apply (by_exhaustion Py.is_space (fun c => Ascii.eqb (Py.lower_char c) c)).
  vm_compute. reflexivity.
Qed.

Lemma lower_block (p : ascii -> bool) (s : str) :
  (forall c, p c = true -> Py.lower_char c = c) ->
  forallb p s = true -> Py.lower s = s.
Proof.
  intros Hp. induction s as [| c s IH]; intros H; [reflexivity |].
  simpl in *. apply andb_true_iff in H. destruct H as [Hc H].
  now rewrite (Hp c Hc), IH.
Qed.

(** ** A count before a noun the detection does not know *)

Lemma match_at_count_indicator (s : str) :
  Re.match_at count_indicator s
  = Re.plus_here Py.is_digit s
      (fun s1 =>
         Re.plus_here Py.is_space s1
           (fun s2 =>
              Re.match_here (Re.Group 1 (Re.alts detected_plurals)) s2 []
                            (fun _ caps => Some caps))).
Proof. reflexivity. Qed.

Lemma stops_at_block (p q : ascii -> bool) (block rest : str) :
  (forall c, q c = true -> p c = false) ->
  all_of q block -> stops p (block ++ rest).
Proof.
  intros Hpq [Hne Hall]. destruct block as [| c block]; [easy |].
  simpl in *. apply andb_true_iff in Hall. now apply Hpq.
Qed.

Lemma plurals_reject_space (c : ascii) :
  Py.is_space c = true ->
  rejects (Re.Group 1 (Re.alts detected_plurals)) c = true.
Proof.
  revert c. apply by_exhaustion. vm_compute. reflexivity.
Qed.

Lemma count_indicator_fails_on_digits (spaces noun : str) :
  all_of Py.is_space spaces -> In noun undetected_nouns ->
  forall part, forallb Py.is_digit part = true ->
               Re.match_at count_indicator (part ++ spaces ++ noun) = None.
Proof.
  intros Hspaces Hnoun part Hpart. rewrite match_at_count_indicator.
  apply plus_here_none.
  - apply stops_at_block with (q := Py.is_space);
      [apply space_not_digit | exact Hspaces].
  - intros [| c part1] Hpart1.
    + change ([] ++ spaces ++ noun) with (spaces ++ noun).
      apply (plus_here_none Py.is_space) with (rest := noun) (block := spaces).
      * simpl in Hnoun.
        destruct Hnoun as [<- | [<- | [<- | [<- | []]]]]; exact eq_refl.
      * intros [| c part2] Hpart2.
        -- simpl in Hnoun.
           destruct Hnoun as [<- | [<- | [<- | [<- | []]]]]; reflexivity.
        -- simpl in Hpart2. apply andb_true_iff in Hpart2.
           apply rejects_sound. apply plurals_reject_space. tauto.
      * apply Hspaces.
    + simpl in Hpart1. apply andb_true_iff in Hpart1.
      destruct Hpart1 as [Hc _]. simpl.
      now rewrite (digit_not_space c Hc).
  - exact Hpart.
Qed.

Lemma indicators_reject_space (c : ascii) :
  Py.is_space c = true ->
  forallb (fun r => rejects r c) multi_indicators = true.
Proof.
  revert c. apply by_exhaustion. vm_compute. reflexivity.
Qed.

Lemma literal_indicators_reject_digit (c : ascii) :
  Py.is_digit c = true ->
  forallb (fun r => rejects r c) (tl multi_indicators) = true.
Proof.
  revert c. apply by_exhaustion. vm_compute. reflexivity.
Qed.

Lemma indicators_fail_on_noun (noun : str) (r : Re.regex) :
  In noun undetected_nouns -> In r multi_indicators ->
  Re.search r noun = None.
Proof.
  intros Hnoun Hr. simpl in Hnoun, Hr.
  destruct Hnoun as [<- | [<- | [<- | [<- | []]]]];
    repeat (destruct Hr as [<- | Hr]; [reflexivity |]); contradiction.
Qed.

(** No detection pattern matches a number, white space and one of the
    nouns [balls], [boxes], [tubes], [torus]. *)
Lemma count_of_undetected_noun_not_multi (digits spaces noun : str) :
  all_of Py.is_digit digits -> all_of Py.is_space spaces ->
  In noun undetected_nouns ->
  is_multi_object (digits ++ spaces ++ noun) = false.
Proof.
  intros Hd Hs Hnoun. unfold is_multi_object.
  apply not_true_is_false. intros H.
  apply existsb_exists in H. destruct H as (r & Hr & Hfound).
  unfold Re.found in Hfound.
  assert (Re.search r (digits ++ spaces ++ noun) = None) as Hnone;
    [| now rewrite Hnone in Hfound].
  assert (Re.search r (spaces ++ noun) = None) as Hspaces.
  { rewrite (search_skip_rejected Py.is_space).
    - now apply indicators_fail_on_noun.
    - intros c Hc. pose proof (indicators_reject_space c Hc) as Hall.
      rewrite forallb_forall in Hall. now apply Hall.
    - apply Hs. }
  destruct Hr as [<- | Hr].
  - rewrite (search_skip Py.is_digit); [exact Hspaces | | apply Hd].
    intros part [_ Hpart].
    now apply count_indicator_fails_on_digits.
  - rewrite (search_skip_rejected Py.is_digit); [exact Hspaces | | apply Hd].
    intros c Hc. pose proof (literal_indicators_reject_digit c Hc) as Hall.
    rewrite forallb_forall in Hall. now apply Hall.
Qed.

Lemma firstn_consumed (a b : str) :
  firstn (length (a ++ b) - length b) (a ++ b) = a.
Proof.
  rewrite length_app.
  replace (length a + length b - length b)%nat with (length a + 0)%nat
    by lia.
  rewrite firstn_app_2. simpl. apply app_nil_r.
Qed.

Lemma search_at (r : Re.regex) (s : str) (caps : Re.captures) :
  Re.match_at r s = Some caps -> Re.search r s = Some caps.
Proof. intros H. destruct s; simpl; now rewrite H. Qed.

Lemma match_at_quantity_pattern (s : str) :
  Re.match_at quantity_pattern s
  = Re.plus_here Py.is_digit s
      (fun s1 =>
         Re.plus_here Py.is_space s1
           (fun s2 =>
              Re.match_here
                (seqs [Re.Group 2
                         (Re.alts ["sphere" : str; "cube" : str;
                                   "cylinder" : str; "cone" : str;
                                   "torus" : str; "ball" : str;
                                   "box" : str; "tube" : str]);
                       Re.Opt (Re.Chr "s")])
                s2 [(1%nat, firstn (length s - length s1) s)]
                (fun _ caps => Some caps))).
Proof. reflexivity. Qed.

(** The quantity pattern accepts such a text: it captures the number and
    the singular noun. *)
Lemma quantity_accepts_undetected_noun (digits spaces noun singular : str) :
  all_of Py.is_digit digits -> all_of Py.is_space spaces ->
  In (noun, singular) undetected_singulars ->
  search_groups quantity_pattern (digits ++ spaces ++ noun)
  = Some (digits, singular).
Proof.
  intros Hd Hs Hnoun. unfold search_groups.
  rewrite (search_at quantity_pattern _ [(2%nat, singular); (1%nat, digits)]);
    [reflexivity |].
  rewrite match_at_quantity_pattern.
  apply plus_here_greedy; [| | exact Hd].
  - apply stops_at_block with (q := Py.is_space);
      [apply space_not_digit | exact Hs].
  - rewrite firstn_consumed.
    apply plus_here_greedy; [| | exact Hs]; simpl in Hnoun;
      destruct Hnoun as [H | [H | [H | [H | []]]]];
      injection H as <- <-; exact eq_refl.
Qed.

Lemma lower_count_noun (digits spaces noun : str) :
  all_of Py.is_digit digits -> all_of Py.is_space spaces ->
  In noun undetected_nouns ->
  Py.lower (digits ++ spaces ++ noun) = digits ++ spaces ++ noun.
Proof.
  intros [_ Hd] [_ Hs] Hnoun. rewrite !lower_app.
  rewrite (lower_block Py.is_digit digits lower_digit Hd).
  rewrite (lower_block Py.is_space spaces lower_space Hs).
  simpl in Hnoun.
  destruct Hnoun as [<- | [<- | [<- | [<- | []]]]]; reflexivity.
Qed.

Lemma in_undetected_nouns (noun singular : str) :
  In (noun, singular) undetected_singulars -> In noun undetected_nouns.
Proof.
  intros H. change undetected_nouns with (map fst undetected_singulars).
  now apply (in_map fst) in H.
Qed.

Lemma parse_single (m : TextToCADModel) (text : str) :
  is_multi_object (Py.lower text) = false ->
  parse m text = ([predict m text], [text]).
Proof. intros H. unfold parse. now rewrite H. Qed.

(** C10: the count indicator of the detection matches exactly the texts
    with a number, white space and one of [spheres], [cubes], [cylinders],
    [cones]; a text without any detection indicator yields exactly one
    object; and a number, white space and one of [balls], [boxes],
    [tubes], [torus] is such a text, so the parser returns one object, the
    prediction for the whole text, although the quantity pattern accepts
    it and captures the number and the noun. *)
Theorem undetected_count_single_object :
  (forall text,
      Re.found count_indicator text = true <->
      exists pre digits spaces noun post,
        text = pre ++ digits ++ spaces ++ noun ++ post
        /\ all_of Py.is_digit digits /\ all_of Py.is_space spaces
        /\ In noun detected_plurals)
  /\
  (forall m text,
      is_multi_object (Py.lower text) = false ->
      value (parse m text) = [predict m text])
  /\
  (forall m digits spaces noun singular,
      all_of Py.is_digit digits -> all_of Py.is_space spaces ->
      In (noun, singular) undetected_singulars ->
      let text := digits ++ spaces ++ noun in
      is_multi_object (Py.lower text) = false
      /\ value (parse m text) = [predict m text]
      /\ search_groups quantity_pattern (Py.lower text)
         = Some (digits, singular)).
Proof.
  split; [exact count_indicator_spec | split].
  - intros m text H. now rewrite parse_single.
  - intros m digits spaces noun singular Hd Hs Hnoun text.
    pose proof (in_undetected_nouns noun singular Hnoun) as Hin.
    assert (is_multi_object (Py.lower text) = false) as Hdetect.
    { unfold text. rewrite lower_count_noun by assumption.
      now apply count_of_undetected_noun_not_multi. }
    split; [exact Hdetect | split].
    + now rewrite parse_single.
    + unfold text. rewrite lower_count_noun by assumption.
      now apply quantity_accepts_undetected_noun.
Qed.

Lemma undetected_count_single_object_witness :
  is_multi_object (Py.lower "3 balls") = false
  /\ value (parse sphere_only_model "3 balls")
     = [predict sphere_only_model "3 balls"]
  /\ search_groups quantity_pattern (Py.lower "3 balls")
     = Some ("3" : str, "ball" : str).
Proof.
  apply (proj2 (proj2 undetected_count_single_object)
               sphere_only_model ("3" : str) (" " : str) ("balls" : str) ("ball" : str)).
  - split; [discriminate | reflexivity].
  - split; [discriminate | reflexivity].
  - left. reflexivity.
Defined.

(** ** Capping of the counts *)

Lemma value_bind {A B} (c : Traced A) (f : A -> Traced B) :
  value (bind c f) = value (f (value c)).
Proof. unfold bind, value. now destruct (f (fst c)). Qed.

Lemma for_each_length {A B} (body : A -> Traced B) (l : list A) :
  length (value (for_each l body)) = length l.
Proof.
  induction l as [| a l IH]; [reflexivity |].
  simpl for_each. rewrite !value_bind. simpl. now rewrite IH.
Qed.

Lemma stack_loop_length (m : TextToCADModel) (shape_text : str) (n : nat) :
  forall y_offset,
    length (value (stack_loop m shape_text n y_offset)) = n.
Proof.
  induction n as [| n IH]; intros y_offset; [reflexivity |].
  simpl stack_loop. rewrite !value_bind. simpl. now rewrite IH.
Qed.

Lemma range_length (n : Z) : length (range n) = Z.to_nat n.
Proof. apply length_seq. Qed.

Lemma stack_pattern_has_stack (text : str) (caps : Re.captures) :
  Re.search stack_pattern text = Some caps ->
  Re.found (Re.lit "stack") text = true.
Proof.
  intros H. apply search_sound in H.
  destruct H as (pre & mid & post & -> & M).
  cbv beta iota delta [stack_pattern seqs fold_right] in M.
  inversion M as [| | | | r1 r2 s1 s2 M1 M2 | | | | |]; subst.
  apply found_spec. exists pre, s1, (s2 ++ post).
  split; [now rewrite <- app_assoc | exact M1].
Qed.

Lemma stacking_request_detected (text : str) (count : Z) :
  stacking_request text count -> is_multi_object (Py.lower text) = true.
Proof.
  intros (_ & _ & _ & number & word & H & _).
  unfold search_groups in H.
  destruct (Re.search stack_pattern (Py.lower text)) as [caps |] eqn:E;
    [| discriminate].
  apply stack_pattern_has_stack in E.
  unfold is_multi_object. apply existsb_exists.
  exists (Re.lit "stack"). split; [| exact E].
  simpl. tauto.
Qed.

(** The number of objects is the count capped at 10. *)
Lemma request_object_count (m : TextToCADModel) (text : str) (count : Z) :
  quantity_request text count \/ stacking_request text count ->
  length (value (parse m text)) = Z.to_nat (Z.min count 10).
Proof.
  intros [Hq | Hs].
  - destruct Hq as (Hdetect & Hand & number & noun & Hmatch & ->).
    unfold parse. rewrite Hdetect.
    unfold extract_multiple_objects. rewrite Hand, Hmatch.
    rewrite for_each_length. apply range_length.
  - pose proof (stacking_request_detected text count Hs) as Hdetect.
    destruct Hs as (Hand & Hnoq & Hnoc & number & word & Hmatch & ->).
    unfold parse. rewrite Hdetect.
    unfold extract_multiple_objects. rewrite Hand, Hnoq, Hnoc, Hmatch.
    apply stack_loop_length.
Qed.

(* ================================================================== *)
(** * Further properties of the code *)
(* ================================================================== *)

(** ** Loops and their traces *)

Lemma calls_bind {A B} (c : Traced A) (f : A -> Traced B) :
  predictor_calls (bind c f)
  = predictor_calls c ++ predictor_calls (f (value c)).
Proof. unfold bind, predictor_calls, value. now destruct (f (fst c)). Qed.

Lemma for_each_cons {A B} (body : A -> Traced B) (a : A) (l : list A) :
  for_each (a :: l) body
  = (value (body a) :: value (for_each l body),
     predictor_calls (body a) ++ predictor_calls (for_each l body)).
Proof.
  simpl. unfold bind, ret, value, predictor_calls.
  destruct (body a) as [b calls], (for_each l body) as [bs calls'].
  simpl. now rewrite app_nil_r.
Qed.

Lemma value_for_each {A B} (body : A -> Traced B) (l : list A) :
  value (for_each l body) = map (fun a => value (body a)) l.
Proof.
  induction l as [| a l IH]; [reflexivity |].
  rewrite for_each_cons. unfold value at 1. simpl. now rewrite IH.
Qed.

(** One prediction per element: the calls and the objects correspond. *)
Lemma for_each_calls {A} (R : str -> ShapeParameters -> Prop)
      (body : A -> Traced ShapeParameters) (l : list A) :
  (forall a, In a l ->
             exists call o, body a = (o, [call]) /\ R call o) ->
  Forall2 R (predictor_calls (for_each l body)) (value (for_each l body)).
Proof.
  induction l as [| a l IH]; intros H.
  - constructor.
  - rewrite for_each_cons. unfold value at 1, predictor_calls at 1. simpl.
    destruct (H a (or_introl eq_refl)) as (call & o & -> & HR).
    simpl. constructor; [exact HR |].
    apply IH. intros a' Ha'. apply H. now right.
Qed.

Lemma stack_loop_calls (R : str -> ShapeParameters -> Prop)
      (m : TextToCADModel) (shape_text : str) :
  (forall y, R shape_text
               (set_position (predict m shape_text) (mkPosition 0 y 0))) ->
  forall n y_offset,
    Forall2 R (predictor_calls (stack_loop m shape_text n y_offset))
              (value (stack_loop m shape_text n y_offset)).
Proof.
  intros HR. induction n as [| n IH]; intros y_offset.
  - constructor.
  - simpl stack_loop. rewrite !calls_bind, !value_bind. simpl.
    rewrite app_nil_r. constructor; [apply HR | apply IH].
Qed.

(** Every way the parser builds its result, for an arbitrary relation
    between a call of the predictor and the object made from it. *)
Lemma parse_calls (R : str -> ShapeParameters -> Prop)
      (m : TextToCADModel) :
  (forall call p,
      R call (set_position (predict m call) p)) ->
  (forall call p k,
      0.3 <= k ->
      R call (scale_radius (scale_size (set_position (predict m call) p) k)
                           k)) ->
  (forall call, R call (predict m call)) ->
  forall text,
    Forall2 R (predictor_calls (parse m text)) (value (parse m text)).
Proof.
  intros Hpos Hscale Hplain text. unfold parse.
  destruct (is_multi_object (Py.lower text));
    [| repeat constructor; apply Hplain].
  unfold extract_multiple_objects.
  destruct (Py.contains " and " (Py.lower text)).
  { apply for_each_calls. intros [i part] _.
    eexists. eexists. split; [reflexivity | apply Hpos]. }
  destruct (search_groups quantity_pattern (Py.lower text))
    as [[group1 group2] |].
  { apply for_each_calls. intros i _.
    eexists. eexists. split; [reflexivity | apply Hpos]. }
  destruct (find _ composite_shapes) as [[name parts] |] eqn:Hfind.
  { apply find_some in Hfind. destruct Hfind as [Hin _].
    apply for_each_calls. intros [[part_text position] size_mult] Hpart.
    eexists. eexists. split; [reflexivity |]. apply Hscale.
    simpl in Hin.
    destruct Hin as [Hin | [Hin | [Hin | []]]]; injection Hin as _ <-;
      simpl in Hpart;
      repeat (destruct Hpart as [Hpart | Hpart];
              [injection Hpart as _ _ <-; discriminate |]);
      contradiction. }
  destruct (search_groups stack_pattern (Py.lower text))
    as [[group1 group2] |].
  { apply stack_loop_calls. intros y. apply Hpos. }
  repeat constructor. apply Hplain.
Qed.

(** ** What the parser does to the predictions *)

(** X1: every object the parser returns comes from exactly one call of the
    predictor, in call order, and keeps the shape, colour, height and
    confidence of that prediction: the parser changes position, size and
    radius only. *)
Theorem parse_keeps_predictions (m : TextToCADModel) (text : str) :
  Forall2 (predicted_from m)
          (predictor_calls (parse m text)) (value (parse m text)).
Proof.
  apply parse_calls; intros; unfold predicted_from, kept; simpl; auto.
Qed.

Lemma scaled_dimension (a k : Q) : 0.1 <= a -> 0.3 <= k -> 0.03 <= a * k.
Proof.
  destruct a as [an ad], k as [kn kd]. unfold Qle. simpl. intros Ha Hk.
  nia.
Qed.

Lemma Forall2_right {A B} (P : B -> Prop) (l : list A) (l' : list B) :
  Forall2 (fun _ b => P b) l l' -> Forall P l'.
Proof. induction 1; constructor; assumption. Qed.

Lemma predict_solid (m : TextToCADModel) (call : str) :
  0.1 <= size (predict m call) /\ 0.1 <= radius (predict m call)
  /\ 0.1 <= height (predict m call).
Proof.
  unfold predict. destruct (trained m); simpl negb; cbv iota.
  - cbv [size radius height]. repeat split; apply max_lower_bound.
  - apply rule_based_dimensions.
Qed.

(** X2: every object the parser returns has size and radius at least 0.03
    and height at least 0.1, for every text and every model: the smallest
    composite multiplier is 0.3 and it is applied to a prediction of at
    least 0.1. *)
Theorem parse_objects_solid (m : TextToCADModel) (text : str) :
  Forall solid (value (parse m text)).
Proof.
  apply Forall2_right with (l := predictor_calls (parse m text)).
  assert (forall a, 0.1 <= a -> 0.03 <= a) as Hweak
    by (intros a Ha; apply Qle_trans with (y := 0.1);
        [discriminate | exact Ha]).
  apply parse_calls.
  - intros call p. destruct (predict_solid m call) as (Hs & Hr & Hh).
    unfold solid; simpl; auto.
  - intros call p k Hk. destruct (predict_solid m call) as (Hs & Hr & Hh).
    unfold solid; simpl.
    repeat split; [now apply scaled_dimension .. | exact Hh].
  - intros call. destruct (predict_solid m call) as (Hs & Hr & Hh).
    unfold solid; auto.
Qed.

(** The bound 0.03 is reached by the legs of a table. *)
Lemma table_leg_size :
  map size (value (parse (mkModel (mkEstimators (fun _ => "cylinder")
                                                (fun _ => 1) (fun _ => 0)
                                                (fun _ => 0) (fun _ => 0))
                                  [] true)
                         "table with a lamp"))
  = [0.1 * 1.0; 0.1 * 0.3; 0.1 * 0.3; 0.1 * 0.3; 0.1 * 0.3].
Proof. reflexivity. Qed.

(** ** Which texts are taken as multi-object *)

Lemma found_lit (word text : str) :
  Re.found (Re.lit word) text = true <-> occurs word text.
Proof.
  rewrite found_spec. split.
  - intros (pre & mid & post & -> & M). apply Matches_lit in M. subst mid.
    now exists pre, post.
  - intros (pre & post & ->). exists pre, word, post.
    split; [reflexivity | now apply Matches_lit].
Qed.

Lemma and_indicator_spec (text : str) :
  Re.found and_indicator text = true <->
  exists pre spaces post,
    text = pre ++ "and" ++ spaces ++ "a" ++ post
    /\ all_of Py.is_space spaces.
Proof.
  rewrite found_spec. split.
  - intros (pre & mid & post & -> & M).
    cbv beta iota delta [and_indicator seqs fold_right] in M.
    inversion M as [| | | | r1 r2 w rest1 Mw M1 | | | | |]; subst.
    inversion M1 as [| | | | r1 r2 ws rest2 Ms M2 | | | | |]; subst.
    inversion M2 as [| | | | r1 r2 art rest3 Ma M3 | | | | |]; subst.
    inversion M3; subst. inversion Ms; subst.
    apply (Matches_lit "and") in Mw. subst w.
    apply (Matches_alts ["a" : str; "an" : str]) in Ma; [| discriminate].
    destruct Ma as [<- | [<- | []]].
    + exists pre, ws, post. split; [| split; assumption].
      rewrite app_nil_r, <- !app_assoc. reflexivity.
    + exists pre, ws, ("n" ++ post). split; [| split; assumption].
      rewrite app_nil_r, <- !app_assoc. reflexivity.
  - intros (pre & ws & post & -> & Hne & Hall).
    exists pre, ("and" ++ ws ++ "a" ++ []), post. split.
    + rewrite app_nil_r, <- !app_assoc. reflexivity.
    + cbv beta iota delta [and_indicator seqs fold_right].
      apply M_Seq; [now apply Matches_lit |].
      apply M_Seq; [now apply M_Plus |].
      apply M_Seq; [| apply M_Eps].
      apply (Matches_alts ["a" : str; "an" : str]); [discriminate |].
      now left.
Qed.

Lemma with_indicator_spec (text : str) :
  Re.found with_indicator text = true <->
  exists pre spaces c post,
    text = pre ++ "with" ++ spaces ++ c :: post
    /\ all_of Py.is_space spaces
    /\ (c = "a"%char \/ Py.is_digit c = true).
Proof.
  rewrite found_spec. split.
  - intros (pre & mid & post & -> & M).
    cbv beta iota delta [with_indicator seqs fold_right] in M.
    inversion M as [| | | | r1 r2 w rest1 Mw M1 | | | | |]; subst.
    inversion M1 as [| | | | r1 r2 ws rest2 Ms M2 | | | | |]; subst.
    inversion M2 as [| | | | r1 r2 art rest3 Ma M3 | | | | |]; subst.
    inversion M3; subst. inversion Ms; subst.
    apply (Matches_lit "with") in Mw. subst w. rewrite app_nil_r.
    inversion Ma as [| | | | | r1 r2 s Ha | r1 r2 s Hb | | |]; subst.
    + apply (Matches_lit "a") in Ha. subst art.
      exists pre, ws, "a"%char, post. split; [| split; [split |]]; auto.
      rewrite <- !app_assoc. reflexivity.
    + inversion Hb as [| | | | | r1 r2 s Han | r1 r2 s Hd | | |]; subst.
      * apply (Matches_lit "an") in Han. subst art.
        exists pre, ws, "a"%char, ("n" ++ post).
        split; [| split; [split |]]; auto.
        rewrite <- !app_assoc. reflexivity.
      * inversion Hd as [| | | p s Hne Hall | | | | | |]; subst.
        destruct art as [| c art]; [easy |].
        simpl in Hall. apply andb_true_iff in Hall.
        exists pre, ws, c, (art ++ post).
        split; [| split; [split |]]; try tauto.
        rewrite <- !app_assoc. reflexivity.
  - intros (pre & ws & c & post & -> & [Hne Hall] & Hc).
    exists pre, ("with" ++ ws ++ [c] ++ []), post. split.
    + rewrite app_nil_r, <- !app_assoc. reflexivity.
    + cbv beta iota delta [with_indicator seqs fold_right].
      apply M_Seq; [now apply Matches_lit |].
      apply M_Seq; [now apply M_Plus |].
      apply M_Seq; [| apply M_Eps].
      destruct Hc as [-> | Hc].
      * apply M_AltL. now apply Matches_lit.
      * apply M_AltR, M_AltR. apply M_Plus; [discriminate |].
        simpl. now rewrite Hc.
Qed.

(** X3: [is_multi_object] accepts exactly the texts that contain a number,
    white space and one of [spheres], [cubes], [cylinders], [cones]; or
    "and", white space and an "a"; or "with", white space and an "a" or a
    digit; or one of the words stack, multiple, several, above, below,
    next to, on top (anywhere, also inside a longer word). *)
Theorem is_multi_object_spec (text : str) :
  is_multi_object text = true <-> detected text.
Proof.
  unfold is_multi_object, detected.
  rewrite <- count_indicator_spec, <- and_indicator_spec,
    <- with_indicator_spec.
  rewrite existsb_exists. split.
  - intros (r & Hr & Hfound). unfold multi_indicators in Hr.
    cbn [In] in Hr.
    destruct Hr as [<- | [<- | [<- | Hr]]]; [tauto | tauto | tauto |].
    right. right. right.
    repeat (destruct Hr as [<- | Hr];
            [apply found_lit in Hfound;
             eexists; split; [| exact Hfound]; simpl; tauto |]).
    contradiction.
  - intros [H | [H | [H | (word & Hin & Hocc)]]].
    + exists count_indicator. split; [simpl; tauto | exact H].
    + exists and_indicator. split; [simpl; tauto | exact H].
    + exists with_indicator. split; [simpl; tauto | exact H].
    + exists (Re.lit word). split; [| now apply found_lit].
      simpl in Hin. simpl.
      repeat (destruct Hin as [<- | Hin]; [tauto |]). contradiction.
Qed.

Lemma is_multi_object_spec_witness :
  is_multi_object "a haystack" = true.
Proof.
  apply (proj2 (is_multi_object_spec "a haystack")).
  right. right. right. exists ("stack" : str). split; [simpl; tauto |].
  exists ("a hay" : str), ([] : str). reflexivity.
Defined.

(** ** The conjunction rule *)

Lemma split_go_not_nil (sep : str) :
  forall s cur skip, Py.split_go sep s cur skip <> [].
Proof.
  induction s as [| c s IH]; intros cur skip; simpl; [discriminate |].
  destruct skip; [| apply IH].
  destruct (Py.startswith sep (c :: s)); [discriminate | apply IH].
Qed.

Lemma split_go_skip (sep rest cur : str) :
  forall dropped,
    Py.split_go sep (dropped ++ rest) cur (length dropped)
    = Py.split_go sep rest cur 0.
Proof.
  induction dropped as [| c dropped IH]; [reflexivity | exact IH].
Qed.

Lemma join_cons (sep part : str) (rest : list str) :
  rest <> [] -> join sep (part :: rest) = part ++ sep ++ join sep rest.
Proof. destruct rest; [easy | reflexivity]. Qed.

(** Joining the segments with the separator gives the text back. *)
Lemma join_split_go (sep : str) :
  sep <> [] ->
  forall n s cur,
    (length s <= n)%nat ->
    join sep (Py.split_go sep s cur 0) = rev cur ++ s.
Proof.
  intros Hsep. induction n as [| n IH]; intros s cur Hlen.
  - destruct s; [| simpl in Hlen; lia]. simpl. now rewrite app_nil_r.
  - destruct s as [| c s]; [simpl; now rewrite app_nil_r |].
    simpl Py.split_go.
    destruct (Py.startswith sep (c :: s)) eqn:E.
    + apply startswith_spec in E. destruct E as [rest Hrest].
      destruct sep as [| d sep']; [easy |].
      injection Hrest as -> ->.
      replace (length (d :: sep') - 1)%nat with (length sep')
        by (simpl; lia).
      rewrite split_go_skip.
      rewrite join_cons by apply split_go_not_nil.
      rewrite (IH rest []).
      * reflexivity.
      * simpl in Hlen. rewrite length_app in Hlen. lia.
    + rewrite (IH s (c :: cur)) by (simpl in Hlen; lia).
      simpl. now rewrite <- app_assoc.
Qed.

Lemma join_split (sep s : str) :
  sep <> [] -> join sep (Py.split sep s) = s.
Proof.
  intros Hsep. unfold Py.split.
  now rewrite (join_split_go sep Hsep (length s) s []).
Qed.

Lemma split_go_two (sep : str) :
  sep <> [] ->
  forall s cur,
    Py.contains sep s = true ->
    (2 <= length (Py.split_go sep s cur 0))%nat.
Proof.
  intros Hsep. induction s as [| c s IH]; intros cur H.
  - destruct sep; [easy | discriminate H].
  - simpl in H. simpl Py.split_go.
    destruct (Py.startswith sep (c :: s)).
    + pose proof (split_go_not_nil sep s [] (length sep - 1)) as Hne.
      destruct (Py.split_go sep s [] (length sep - 1)); [easy |].
      simpl. lia.
    + now apply IH.
Qed.

(** X4: when a text is taken as multi-object and its lower-cased form
    contains " and ", the parser returns one object per segment between
    the separators, at least two, the i-th being the prediction for the
    stripped segment put at x = 2i, y = z = 0; no other rule is tried.
    The segments joined with " and " give the lower-cased text back. *)
Theorem conjunction_rule (m : TextToCADModel) (text : str) :
  is_multi_object (Py.lower text) = true ->
  Py.contains " and " (Py.lower text) = true ->
  let parts := Py.split " and " (Py.lower text) in
  value (parse m text)
  = map (fun '(i, part) =>
           set_position (predict m (Py.strip part))
                        (mkPosition (inject_Z (Z.of_nat i * 2)) 0 0))
        (enumerate parts)
  /\ length (value (parse m text)) = length parts
  /\ (2 <= length parts)%nat
  /\ join " and " parts = Py.lower text.
Proof.
  intros Hdetect Hand parts.
  assert (value (parse m text)
          = map (fun '(i, part) =>
                   set_position (predict m (Py.strip part))
                                (mkPosition (inject_Z (Z.of_nat i * 2)) 0 0))
                (enumerate parts)) as Hvalue.
  { unfold parse. rewrite Hdetect. unfold extract_multiple_objects.
    rewrite Hand. rewrite value_for_each. apply map_ext.
    intros [i part]. reflexivity. }
  split; [exact Hvalue |]. split; [| split].
  - rewrite Hvalue, length_map. unfold enumerate.
    rewrite length_combine, length_seq. apply Nat.min_id.
  - apply split_go_two; [discriminate | exact Hand].
  - apply join_split. discriminate.
Qed.

Lemma conjunction_rule_witness :
  map (fun o => pos_x (position o))
      (value (parse sphere_only_model "3 Cubes and a red ball and a cone"))
  = [0; 2; 4].
Proof.
  destruct (conjunction_rule sphere_only_model
              "3 Cubes and a red ball and a cone" eq_refl eq_refl)
    as [H _].
  rewrite H. reflexivity.
Defined.

(** ** The quantity rule on a number and a plural *)

Lemma contains_skip (p : ascii -> bool) (sep rest : str) :
  (forall part, all_of p part -> Py.startswith sep (part ++ rest) = false) ->
  forall block, forallb p block = true ->
                Py.contains sep (block ++ rest) = Py.contains sep rest.
Proof.
  intros Hstart. induction block as [| c block IH]; intros Hall;
    [reflexivity |].
  pose proof (Hstart (c :: block)) as H0.
  change ((c :: block) ++ rest) with (c :: (block ++ rest)) in *.
  change (Py.contains sep (c :: block ++ rest))
    with (if Py.startswith sep (c :: block ++ rest) then true
          else Py.contains sep (block ++ rest)).
  rewrite H0 by (split; [discriminate | exact Hall]).
  simpl in Hall. apply andb_true_iff in Hall. now apply IH.
Qed.

Lemma digit_not_blank (c : ascii) :
  Py.is_digit c = true -> Py.eqb_char " " c = false.
Proof.
  intros H. apply negb_true_iff. revert c H.
  apply by_exhaustion. vm_compute. reflexivity.
Qed.

Lemma space_not_a (c : ascii) :
  Py.is_space c = true -> Py.eqb_char "a" c = false.
Proof.
  intros H. apply negb_true_iff. revert c H.
  apply by_exhaustion. vm_compute. reflexivity.
Qed.

(** A number, white space and a word that does not start with "and "
    contain " and " only if the word does. *)
Lemma no_and_in_count (digits spaces noun : str) :
  forallb Py.is_digit digits = true -> forallb Py.is_space spaces = true ->
  Py.startswith "and " noun = false ->
  Py.contains " and " (digits ++ spaces ++ noun)
  = Py.contains " and " noun.
Proof.
  intros Hd Hs Hnoun.
  rewrite (contains_skip Py.is_digit); [| | exact Hd].
  - rewrite (contains_skip Py.is_space); [reflexivity | | exact Hs].
    intros [| c [| d part]] [Hne Hall]; [easy | |].
    + change (Py.startswith " and " ([c] ++ noun))
        with (Py.eqb_char " " c && Py.startswith "and " noun).
      rewrite Hnoun. apply andb_false_r.
    + change (Py.startswith " and " ((c :: d :: part) ++ noun))
        with (Py.eqb_char " " c
              && (Py.eqb_char "a" d
                  && Py.startswith "nd " (part ++ noun))).
      simpl in Hall. apply andb_true_iff in Hall. destruct Hall as [_ Hall].
      apply andb_true_iff in Hall. destruct Hall as [Hd' _].
      rewrite (space_not_a d Hd'). apply andb_false_r.
  - intros [| c part] [Hne Hall]; [easy |].
    simpl in Hall. apply andb_true_iff in Hall. destruct Hall as [Hc _].
    change (Py.startswith " and " ((c :: part) ++ spaces ++ noun))
      with (Py.eqb_char " " c
            && Py.startswith "and " (part ++ spaces ++ noun)).
    now rewrite (digit_not_blank c Hc).
Qed.

(** The quantity pattern on a number, white space and a word it knows. *)
Lemma quantity_captures (digits spaces noun singular : str) :
  all_of Py.is_digit digits -> all_of Py.is_space spaces ->
  stops Py.is_space noun ->
  (forall caps,
      Re.match_here
        (seqs [Re.Group 2
                 (Re.alts ["sphere" : str; "cube" : str; "cylinder" : str;
                           "cone" : str; "torus" : str; "ball" : str;
                           "box" : str; "tube" : str]);
               Re.Opt (Re.Chr "s")])
        noun caps (fun _ caps' => Some caps')
      = Some ((2%nat, singular) :: caps)) ->
  search_groups quantity_pattern (digits ++ spaces ++ noun)
  = Some (digits, singular).
Proof.
  intros Hd Hs Hstop Hnoun. unfold search_groups.
  rewrite (search_at quantity_pattern _ [(2%nat, singular); (1%nat, digits)]);
    [reflexivity |].
  rewrite match_at_quantity_pattern.
  apply plus_here_greedy; [| | exact Hd].
  - apply stops_at_block with (q := Py.is_space);
      [apply space_not_digit | exact Hs].
  - rewrite firstn_consumed.
    apply plus_here_greedy; [exact Hstop | apply Hnoun | exact Hs].
Qed.

(** A number, white space and one of the four plurals: the text is its own
    lower-cased form, is taken as multi-object, has no " and ", and the
    quantity pattern captures the number and the singular. *)
Lemma count_plural_facts (digits spaces noun singular : str) :
  all_of Py.is_digit digits -> all_of Py.is_space spaces ->
  In (noun, singular) detected_singulars ->
  Py.lower (digits ++ spaces ++ noun) = digits ++ spaces ++ noun
  /\ is_multi_object (digits ++ spaces ++ noun) = true
  /\ Py.contains " and " (digits ++ spaces ++ noun) = false
  /\ search_groups quantity_pattern (digits ++ spaces ++ noun)
     = Some (digits, singular).
Proof.
  intros Hd Hs Hnoun. split; [| split; [| split]].
  - rewrite !lower_app.
    rewrite (lower_block Py.is_digit digits lower_digit (proj2 Hd)).
    rewrite (lower_block Py.is_space spaces lower_space (proj2 Hs)).
    simpl in Hnoun.
    destruct Hnoun as [H | [H | [H | [H | []]]]]; injection H as <- _;
      reflexivity.
  - unfold is_multi_object. apply existsb_exists.
    exists count_indicator. split; [simpl; tauto |].
    apply count_indicator_spec. exists [], digits, spaces, noun, [].
    rewrite app_nil_r. repeat split; try apply Hd; try apply Hs.
    change detected_plurals with (map fst detected_singulars).
    now apply (in_map fst) in Hnoun.
  - rewrite no_and_in_count; [| apply Hd | apply Hs |]; simpl in Hnoun;
      destruct Hnoun as [H | [H | [H | [H | []]]]]; injection H as <- _;
      reflexivity.
  - apply quantity_captures; [exact Hd | exact Hs | |]; simpl in Hnoun;
      destruct Hnoun as [H | [H | [H | [H | []]]]]; injection H as <- <-;
      try exact eq_refl; intros caps; reflexivity.
Qed.

(** ** The stacking rule *)

Lemma stack_loop_value (m : TextToCADModel) (shape_text : str) :
  forall n y_offset,
    value (stack_loop m shape_text n y_offset)
    = map (fun k =>
             set_position (predict m shape_text)
               (mkPosition 0
                  (Nat.iter k
                     (fun y => y + size (predict m shape_text) * 2)
                     y_offset)
                  0))
          (seq 0 n).
Proof.
  induction n as [| n IH]; intros y_offset; [reflexivity |].
  simpl stack_loop. rewrite !value_bind.
  change (value (call_predict m shape_text)) with (predict m shape_text).
  cbv beta. unfold ret, value at 1. cbn [fst].
  rewrite IH. cbn [seq map Nat.iter]. f_equal.
  rewrite <- seq_shift, map_map. apply map_ext. intros k.
  now rewrite Nat.iter_succ_r.
Qed.

(** ** How many objects *)

Lemma int_nonneg (s : str) : (0 <= Py.int s)%Z.
Proof.
  unfold Py.int.
  assert (forall acc, (0 <= acc)%Z ->
            (0 <= fold_left (fun a c => a * 10 + Py.digit_value c) s acc)%Z)
    as H.
  { induction s as [| c s IH]; intros acc Hacc; [exact Hacc |].
    simpl. apply IH. unfold Py.digit_value. lia. }
  apply H. lia.
Qed.

Lemma composite_parts (name : str) (parts : list (str * Position * Q)) :
  In (name, parts) composite_shapes ->
  (2 <= length parts <= 5)%nat.
Proof.
  intros H. simpl in H.
  destruct H as [H | [H | [H | []]]]; injection H as _ <-; simpl; lia.
Qed.

Lemma split_length (sep s : str) : (1 <= length (Py.split sep s))%nat.
Proof.
  unfold Py.split. pose proof (split_go_not_nil sep s [] 0) as H.
  destruct (Py.split_go sep s [] 0); [easy | simpl; lia].
Qed.

(** The number of objects along each path of the parser. *)
Lemma parse_length_cases (m : TextToCADModel) (text : str) :
  (is_multi_object (Py.lower text) = true
   /\ Py.contains " and " (Py.lower text) = true
   /\ length (value (parse m text))
      = length (Py.split " and " (Py.lower text)))
  \/ (exists count,
         quantity_request text count
         /\ length (value (parse m text)) = Z.to_nat (Z.min count 10))
  \/ (exists count,
         stacking_request text count
         /\ length (value (parse m text)) = Z.to_nat (Z.min count 10))
  \/ (1 <= length (value (parse m text)) <= 5)%nat.
Proof.
  destruct (is_multi_object (Py.lower text)) eqn:Hdetect.
  2:{ right. right. right. rewrite parse_single by exact Hdetect.
      simpl. lia. }
  destruct (Py.contains " and " (Py.lower text)) eqn:Hand.
  { left. repeat split.
    unfold parse. rewrite Hdetect. unfold extract_multiple_objects.
    rewrite Hand, for_each_length. unfold enumerate.
    rewrite length_combine, length_seq. apply Nat.min_id. }
  right.
  destruct (search_groups quantity_pattern (Py.lower text))
    as [[number noun] |] eqn:Hq.
  { left. exists (Py.int number).
    assert (quantity_request text (Py.int number)) as Hreq
      by (repeat split; try assumption; now exists number, noun).
    split; [exact Hreq |]. apply request_object_count. now left. }
  right.
  destruct (find (fun '(composite_name, _) =>
                    Py.contains composite_name (Py.lower text))
                 composite_shapes) as [[name parts] |] eqn:Hc.
  { right. unfold parse. rewrite Hdetect. unfold extract_multiple_objects.
    rewrite Hand, Hq, Hc, for_each_length.
    apply find_some in Hc. destruct Hc as [Hin _].
    pose proof (composite_parts name parts Hin). lia. }
  destruct (search_groups stack_pattern (Py.lower text))
    as [[number word] |] eqn:Hs.
  { left. exists (Py.int number).
    assert (stacking_request text (Py.int number)) as Hreq
      by (repeat split; try assumption; now exists number, word).
    split; [exact Hreq |]. apply request_object_count. now right. }
  right. unfold parse. rewrite Hdetect. unfold extract_multiple_objects.
  rewrite Hand, Hq, Hc, Hs. simpl. lia.
Qed.

(** X7: the parser never returns more than ten objects unless the
    conjunction rule answers, where it returns one object per segment;
    in particular a text whose lower-cased form has no " and " yields at
    most ten objects. *)
Theorem parse_object_bound (m : TextToCADModel) (text : str) :
  (length (value (parse m text))
   <= Nat.max 10 (length (Py.split " and " (Py.lower text))))%nat
  /\ (Py.contains " and " (Py.lower text) = false ->
      (length (value (parse m text)) <= 10)%nat).
Proof.
  destruct (parse_length_cases m text)
    as [(_ & Hand & H) | [(count & _ & H) | [(count & _ & H) | H]]].
  - split; [lia | congruence].
  - split; [lia | intros _; lia].
  - split; [lia | intros _; lia].
  - split; [lia | intros _; lia].
Qed.

Lemma parse_object_bound_witness :
  (length (value (parse untrained_model "several boxes, 99 tubes")) <= 10)%nat.
Proof.
  apply (proj2 (parse_object_bound untrained_model
                  "several boxes, 99 tubes")).
  reflexivity.
Defined.

(** Without the exception of [int]: no object at all exactly when the
    quantity rule or the stacking rule answers with the count 0. *)
Lemma parse_empty_cases (m : TextToCADModel) (text : str) :
  value (parse m text) = [] <->
  quantity_request text 0 \/ stacking_request text 0.
Proof.
  split.
  - intros Hnil.
    assert (length (value (parse m text)) = 0%nat) as Hlen
      by now rewrite Hnil.
    destruct (parse_length_cases m text)
      as [(_ & _ & H) | [(count & Hreq & H) | [(count & Hreq & H) | H]]].
    + pose proof (split_length " and " (Py.lower text)). lia.
    + left. replace 0%Z with count; [exact Hreq |].
      destruct Hreq as (_ & _ & number & noun & _ & ->).
      pose proof (int_nonneg number). lia.
    + right. replace 0%Z with count; [exact Hreq |].
      destruct Hreq as (_ & _ & _ & number & word & _ & ->).
      pose proof (int_nonneg number). lia.
    + lia.
  - intros Hreq.
    pose proof (request_object_count m text 0 Hreq) as Hlen.
    destruct (value (parse m text)); [reflexivity | discriminate Hlen].
Qed.

(** ** The rule-based fallback *)

Lemma any_in_spec (words : list str) (text : str) :
  any_in words text = true <-> some_occurs words text.
Proof.
  unfold any_in, some_occurs. rewrite existsb_exists.
  split; intros (word & Hin & H); exists word; split; auto;
    now apply contains_spec.
Qed.

Lemma first_group_hit {A} (default : A) (groups : list (list str * A))
      (text : str) :
  forall i words v,
    nth_error groups i = Some (words, v) ->
    some_occurs words text ->
    (forall j words' v', (j < i)%nat ->
       nth_error groups j = Some (words', v') ->
       ~ some_occurs words' text) ->
    first_group default groups text = v.
Proof.
  induction groups as [| [ws w] groups IH]; intros i words v Hi Hocc Hbefore.
  - destruct i; discriminate.
  - destruct i as [| i]; simpl in *.
    + injection Hi as -> ->. apply any_in_spec in Hocc. now rewrite Hocc.
    + destruct (any_in ws text) eqn:E.
      * apply any_in_spec in E.
        now contradiction (Hbefore 0%nat ws w (Nat.lt_0_succ i) eq_refl).
      * apply (IH i words v Hi Hocc).
        intros j words' v' Hj Hnth.
        apply (Hbefore (S j) words' v'); [lia | exact Hnth].
Qed.

Lemma first_group_miss {A} (default : A) (groups : list (list str * A))
      (text : str) :
  (forall words v, In (words, v) groups -> ~ some_occurs words text) ->
  first_group default groups text = default.
Proof.
  induction groups as [| [ws w] groups IH]; intros H; simpl;
    [reflexivity |].
  destruct (any_in ws text) eqn:E.
  - apply any_in_spec in E. now contradiction (H ws w (or_introl eq_refl)).
  - apply IH. intros words v Hin. apply (H words v). now right.
Qed.

Lemma rule_based_shape (text : str) :
  shape (rule_based_parse text)
  = first_group "sphere" shape_keywords (Py.lower text).
Proof. reflexivity. Qed.

Lemma rule_based_size (text : str) :
  size (rule_based_parse text)
  = first_group 1.0 size_keywords (Py.lower text).
Proof. reflexivity. Qed.

(** X9: the rule-based parser answers the kind of the first keyword group,
    in the order sphere, cube, cylinder, cone, torus, one of whose words
    occurs in the lower-cased text, whatever words of later groups occur
    too, and [sphere] when no keyword occurs. *)
Theorem rule_based_shape_priority (text : str) :
  (forall i words kind,
      nth_error shape_keywords i = Some (words, kind) ->
      some_occurs words (Py.lower text) ->
      (forall j words' kind', (j < i)%nat ->
         nth_error shape_keywords j = Some (words', kind') ->
         ~ some_occurs words' (Py.lower text)) ->
      shape (rule_based_parse text) = kind)
  /\
  ((forall words kind, In (words, kind) shape_keywords ->
      ~ some_occurs words (Py.lower text)) ->
   shape (rule_based_parse text) = "sphere").
Proof.
  rewrite rule_based_shape. split.
  - intros i words kind. apply first_group_hit.
  - apply first_group_miss.
Qed.

Lemma rule_based_shape_priority_witness :
  shape (rule_based_parse "A Box on a ball") = "sphere"
  /\ shape (rule_based_parse "gear") = "sphere".
Proof.
  split.
  - apply (proj1 (rule_based_shape_priority "A Box on a ball") 0%nat
                 ["sphere" : str; "ball" : str; "orb" : str; "globe" : str]
                 "sphere" eq_refl).
    + exists ("ball" : str). split; [simpl; tauto |].
      exists ("a box on a " : str), ([] : str). reflexivity.
    + intros j words' kind' Hj. lia.
  - apply (proj2 (rule_based_shape_priority "gear")).
    intros words kind Hin. rewrite <- any_in_spec.
    simpl in Hin.
    repeat (destruct Hin as [Hin | Hin];
            [injection Hin as <- _; discriminate |]).
    contradiction.
Defined.

(** X10: the rule-based size is 2.0 as soon as large, big or huge occurs in
    the lower-cased text, also when small, tiny or little occurs too; it
    is 0.5 when only one of the latter occurs and 1.0 when none does; the
    radius always equals the size. *)
Theorem rule_based_size_priority (text : str) :
  (some_occurs ["large" : str; "big" : str; "huge" : str] (Py.lower text) ->
   size (rule_based_parse text) = 2.0)
  /\ (~ some_occurs ["large" : str; "big" : str; "huge" : str]
        (Py.lower text) ->
      some_occurs ["small" : str; "tiny" : str; "little" : str]
        (Py.lower text) ->
      size (rule_based_parse text) = 0.5)
  /\ (~ some_occurs ["large" : str; "big" : str; "huge" : str]
        (Py.lower text) ->
      ~ some_occurs ["small" : str; "tiny" : str; "little" : str]
        (Py.lower text) ->
      size (rule_based_parse text) = 1.0)
  /\ radius (rule_based_parse text) = size (rule_based_parse text).
Proof.
  rewrite rule_based_size. repeat split.
  - intros H. apply (first_group_hit 1.0 size_keywords _ 0%nat _ _ eq_refl H).
    intros j words' v' Hj. lia.
  - intros Hno H.
    apply (first_group_hit 1.0 size_keywords _ 1%nat _ _ eq_refl H).
    intros j words' v' Hj Hnth.
    destruct j as [| j]; [| lia]. injection Hnth as <- _. exact Hno.
  - intros Hno1 Hno2. apply first_group_miss.
    intros words v Hin. simpl in Hin.
    destruct Hin as [Hin | [Hin | []]]; injection Hin as <- _; assumption.
Qed.

Lemma rule_based_size_priority_witness :
  size (rule_based_parse "a small but HUGE cube") = 2.0.
Proof.
  apply (proj1 (rule_based_size_priority "a small but HUGE cube")).
  exists ("huge" : str). split; [simpl; tauto |].
  exists ("a small but " : str), (" cube" : str). reflexivity.
Defined.

(** X11: the record of the rule-based parser: the shape is one of the five
    kinds, the size one of 2.0, 0.5, 1.0, the height is 2.5 exactly for a
    cylinder or a cone and 2.0 otherwise, the position is the origin and
    the confidence 0.7. *)
Theorem rule_based_parse_record (text : str) :
  let r := rule_based_parse text in
  In (shape r) ["sphere"; "cube"; "cylinder"; "cone"; "torus"]
  /\ In (size r) [2.0; 0.5; 1.0]
  /\ (height r = 2.5 <-> shape r = "cylinder" \/ shape r = "cone")
  /\ (height r = 2.0 <-> shape r <> "cylinder" /\ shape r <> "cone")
  /\ position r = mkPosition 0 0 0
  /\ confidence r = 0.7.
Proof.
  cbv [rule_based_parse shape size height position confidence origin].
  repeat match goal with
         | |- context [any_in ?words ?t] => destruct (any_in words t)
         end;
    simpl;
    repeat split; try tauto; try discriminate; try (intros; discriminate);
    try (intros [H | H]; discriminate H);
    try (intros [H1 H2]; congruence).
Qed.

(** ** The status of /parse-text *)

Lemma has_text_not_lacks (request_json : RequestJson) :
  has_text request_json -> ~ lacks_text request_json.
Proof.
  intros (fields & text & -> & Hl & Hne) (fields' & Heq & H).
  injection Heq as <-. rewrite Hl in H.
  destruct H as [H | (v & Hv & Hf)]; [discriminate |].
  injection Hv as <-. destruct text; [easy | discriminate].
Qed.

(** ** Retraining, persistence and the trained flag *)

Section Retrain.

Variable fit : list json -> Estimators -> Estimators * option str.

Lemma retrain_with_example (s : Server) (fields : list (str * json))
      (example : json) :
  lookup "example" fields = Some example -> truthy example = true ->
  retrain fit s (inr (JObj fields))
  = match train_models fit (append_example (model s) example) with
    | (m, Some e) =>
        (mkServer m (training_file s), mkResponse (ErrorBody e) 500)
    | (m, None) =>
        (mkServer m (Some (training_data m)),
         mkResponse (RetrainBody "retrained" (length (training_data m))) 200)
    end.
Proof.
  intros Hl Ht. unfold retrain, get. rewrite Hl, Ht.
  destruct (train_models fit (append_example (model s) example))
    as [m [e |]]; reflexivity.
Qed.

(** X13: a retrain request with an example appends it to the corpus in
    memory before fitting.  If fitting is skipped (fewer than 5 examples)
    or succeeds, the whole corpus is written to the file and the answer
    is 200 with the new total; if fitting raises, the answer is 500 with
    the message, the example stays in the corpus in memory, and the file
    is left as it was, so memory and file differ. *)
Theorem retrain_persistence (s : Server) (fields : list (str * json))
        (example : json) :
  lookup "example" fields = Some example -> truthy example = true ->
  let corpus := training_data (model s) ++ [example] in
  let s' := fst (retrain fit s (inr (JObj fields))) in
  let response := snd (retrain fit s (inr (JObj fields))) in
  training_data (model s') = corpus
  /\ (((length corpus < 5)%nat
       \/ snd (fit corpus (estimators (model s))) = None) ->
      training_file s' = Some corpus
      /\ response
         = mkResponse (RetrainBody "retrained" (length corpus)) 200)
  /\ (forall err,
         (5 <= length corpus)%nat ->
         snd (fit corpus (estimators (model s))) = Some err ->
         training_file s' = training_file s
         /\ response = mkResponse (ErrorBody err) 500).
Proof.
  intros Hl Ht corpus s' response. subst s' response.
  rewrite (retrain_with_example s fields example Hl Ht).
  unfold train_models. simpl training_data. simpl estimators.
  fold corpus.
  destruct (length corpus <? 5)%nat eqn:Hlen.
  - apply Nat.ltb_lt in Hlen. simpl.
    split; [reflexivity |]. split; [auto | intros err H; lia].
  - apply Nat.ltb_ge in Hlen.
    destruct (fit corpus (estimators (model s))) as [e [err |]] eqn:Hfit;
      simpl.
    + split; [reflexivity |]. split.
      * intros [H | H]; [lia | discriminate H].
      * intros err' _ H. injection H as <-. auto.
    + split; [reflexivity |]. split; [auto | intros err' _ H; discriminate H].
Qed.

(** X14: a retrain request whose "example" is missing or false in Python's
    sense (null, an empty object, 0, an empty string or list) changes
    nothing, neither model nor file, and is still answered 200
    "retrained" with the unchanged total. *)
Theorem retrain_without_example (s : Server) (fields : list (str * json)) :
  (lookup "example" fields = None
   \/ exists v, lookup "example" fields = Some v /\ truthy v = false) ->
  retrain fit s (inr (JObj fields))
  = (s, mkResponse
          (RetrainBody "retrained" (length (training_data (model s)))) 200).
Proof.
  intros [H | (v & H & Hv)]; unfold retrain, get; rewrite H;
    [| rewrite Hv]; reflexivity.
Qed.

Lemma train_models_trained (m : TextToCADModel) :
  trained (fst (train_models fit m)) = true ->
  trained m = true \/ (5 <= length (training_data m))%nat.
Proof.
  unfold train_models.
  destruct (length (training_data m) <? 5)%nat eqn:Hlen; [tauto |].
  apply Nat.ltb_ge in Hlen. tauto.
Qed.

Lemma train_models_keeps_trained (m : TextToCADModel) :
  trained m = true -> trained (fst (train_models fit m)) = true.
Proof.
  intros H. unfold train_models.
  destruct (length (training_data m) <? 5)%nat; [exact H |].
  destruct (fit (training_data m) (estimators m)) as [e [err |]];
    [exact H | reflexivity].
Qed.

Lemma retrain_model (s : Server) (request_json : RequestJson) :
  model (fst (retrain fit s request_json)) = model s
  \/ exists example,
      model (fst (retrain fit s request_json))
      = fst (train_models fit (append_example (model s) example)).
Proof.
  unfold retrain.
  destruct request_json as [e | data]; [now left |].
  destruct (get data "example" JNull) as [e | new_example]; [now left |].
  destruct (truthy new_example); [| now left].
  right. exists new_example.
  destruct (train_models fit (append_example (model s) new_example))
    as [m [e |]]; reflexivity.
Qed.

Lemma serve_model (s : Server) (r : Request) :
  model (fst (serve fit s r)) = model s
  \/ exists example,
      model (fst (serve fit s r))
      = fst (train_models fit (append_example (model s) example)).
Proof.
  destruct r as [request_json | | request_json]; simpl;
    [now left | now left | apply retrain_model].
Qed.

Lemma session_cons (s : Server) (r : Request) (rs : list Request) :
  session fit s (r :: rs) = session fit (fst (serve fit s r)) rs.
Proof. reflexivity. Qed.

Lemma session_stays_trained (rs : list Request) :
  forall s, trained (model s) = true ->
            trained (model (session fit s rs)) = true.
Proof.
  induction rs as [| r rs IH]; intros s H; [exact H |].
  rewrite session_cons. apply IH.
  destruct (serve_model s r) as [-> | (example & ->)]; [exact H |].
  now apply train_models_keeps_trained.
Qed.

Lemma session_trained_needs_five (rs : list Request) :
  forall s,
    trained (model (session fit s rs)) = true ->
    trained (model s) = true
    \/ (5 <= length (training_data (model (session fit s rs))))%nat.
Proof.
  induction rs as [| r rs IH]; intros s H; [now left |].
  rewrite session_cons in *.
  destruct (IH _ H) as [Hr | Hlen]; [| now right].
  destruct (serve_model s r) as [Heq | (example & Heq)];
    rewrite Heq in Hr; [now left |].
  apply train_models_trained in Hr. destruct Hr as [Hr | Hr]; [now left |].
  right.
  destruct (session_corpus fit rs (fst (serve fit s r))) as (added & ->).
  rewrite Heq, train_models_corpus, length_app. lia.
Qed.

(** X15: over any sequence of requests the [trained] flag is never reset:
    a trained model stays trained; and a model that was not trained can
    only have become trained if the corpus now holds at least 5
    examples. *)
Theorem trained_flag_monotone (s : Server) (rs : list Request) :
  (trained (model s) = true ->
   trained (model (session fit s rs)) = true)
  /\ (trained (model s) = false ->
      trained (model (session fit s rs)) = true ->
      (5 <= length (training_data (model (session fit s rs))))%nat).
Proof.
  split.
  - apply session_stays_trained.
  - intros Hfalse Htrue.
    destruct (session_trained_needs_five rs s Htrue) as [H | H];
      [congruence | exact H].
Qed.

(** When [/retrain] answers 200, the total it reports is the number of
    examples a following [/health] reports. *)
Lemma health_after_retrain (s : Server) (request_json : RequestJson)
        (status : str) (total : nat) :
  snd (retrain fit s request_json)
  = mkResponse (RetrainBody status total) 200 ->
  health (model (fst (retrain fit s request_json)))
  = mkResponse
      (HealthBody "healthy"
                  (trained (model (fst (retrain fit s request_json))))
                  total)
      200.
Proof.
  unfold retrain, health.
  destruct request_json as [e | data]; [discriminate |].
  destruct (get data "example" JNull) as [e | new_example]; [discriminate |].
  destruct (truthy new_example).
  - destruct (train_models fit (append_example (model s) new_example))
      as [m [e |]]; [discriminate |].
    simpl. intros H. injection H as _ <-. reflexivity.
  - simpl. intros H. injection H as _ <-. reflexivity.
Qed.

End Retrain.

Lemma retrain_persistence_witness :
  training_file
    (fst (retrain refit_unchanged fresh_server
            (inr (JObj [("example" : str, sphere_example)]))))
  = Some [sphere_example]
  /\ training_file
       (fst (retrain fit_raises (mkServer sphere_only_model None)
               (inr (JObj [("example" : str, sphere_example)]))))
     = None.
Proof.
  split.
  - apply (proj1 (proj2 (retrain_persistence refit_unchanged fresh_server
                           [("example" : str, sphere_example)]
                           sphere_example eq_refl eq_refl))).
    left. simpl. lia.
  - apply (proj2 (proj2 (retrain_persistence fit_raises
                           (mkServer sphere_only_model None)
                           [("example" : str, sphere_example)]
                           sphere_example eq_refl eq_refl))
                 ("fit failed" : str)).
    + simpl. lia.
    + reflexivity.
Defined.

Lemma retrain_without_example_witness :
  retrain fit_raises fresh_server
          (inr (JObj [("example" : str, JObj [])]))
  = (fresh_server, mkResponse (RetrainBody "retrained" 0) 200).
Proof.
  apply (retrain_without_example fit_raises fresh_server
           [("example" : str, JObj [])]).
  right. exists (JObj []). split; reflexivity.
Defined.

Lemma trained_flag_monotone_witness :
  trained
    (model (session fit_raises (mkServer sphere_only_model None)
              [PostRetrain (inr (JObj [("example" : str, sphere_example)]));
               GetHealth]))
  = true.
Proof.
  apply (proj1 (trained_flag_monotone fit_raises
                  (mkServer sphere_only_model None) _)).
  reflexivity.
Defined.

Lemma health_after_retrain_witness :
  health
    (model (fst (retrain refit_unchanged fresh_server
                   (inr (JObj [("example" : str, sphere_example)])))))
  = mkResponse (HealthBody "healthy" false 1) 200.
Proof.
  apply (health_after_retrain refit_unchanged fresh_server
           (inr (JObj [("example" : str, sphere_example)]))
           "retrained" 1).
  reflexivity.
Defined.

(** ** Construction of the model *)

Section Start.

Variable fit : list json -> Estimators -> Estimators * option str.

Lemma train_or_raise_result (m m' : TextToCADModel) :
  train_or_raise fit m = inr m' ->
  training_data m' = training_data m
  /\ ((5 <= length (training_data m))%nat -> trained m' = true)
  /\ ((length (training_data m) < 5)%nat -> trained m' = trained m).
Proof.
  unfold train_or_raise, train_models.
  destruct (length (training_data m) <? 5)%nat eqn:Hlen.
  - apply Nat.ltb_lt in Hlen. intros H. injection H as <-.
    repeat split; auto. lia.
  - apply Nat.ltb_ge in Hlen.
    destruct (fit (training_data m) (estimators m)) as [e [err |]];
      [discriminate |].
    intros H. injection H as <-. simpl. repeat split; auto. lia.
Qed.

Lemma default_data_length : length default_data = 18%nat.
Proof. reflexivity. Qed.

(** What a successful construction leaves. *)
Lemma new_model_result (unfitted : Estimators) (file : option (list json))
      (m : TextToCADModel) :
  new_model fit unfitted file = inr m ->
  trained m = true
  /\ ((exists data, file = Some data /\ (5 <= length data)%nat
                    /\ training_data m = data)
      \/ ((file = None
           \/ exists data, file = Some data /\ (length data < 5)%nat)
          /\ training_data m = default_data)).
Proof.
  unfold new_model, load_training_data, init_default_training.
  destruct file as [data |].
  - destruct (5 <=? length data)%nat eqn:Hlen.
    + apply Nat.leb_le in Hlen.
      destruct (train_or_raise fit
                  (set_training_data (mkModel unfitted [] false) data))
        as [err | m1] eqn:Htrain; [discriminate |].
      apply train_or_raise_result in Htrain.
      destruct Htrain as (Hdata & Htrained & _).
      rewrite (Htrained Hlen). simpl.
      intros H. injection H as <-.
      split; [now apply Htrained |]. left. now exists data.
    + apply Nat.leb_gt in Hlen. simpl.
      intros H. apply train_or_raise_result in H.
      destruct H as (Hdata & Htrained & _).
      split; [apply Htrained; simpl; lia |].
      right. split; [right; now exists data | exact Hdata].
  - simpl. intros H. apply train_or_raise_result in H.
    destruct H as (Hdata & Htrained & _).
    split; [apply Htrained; simpl; lia |].
    right. split; [now left | exact Hdata].
Qed.

(** X17: in a process that started, the model is trained after every
    sequence of requests, so every prediction comes from the estimators:
    the rule-based parser is never used. *)
Theorem started_server_statistical (unfitted : Estimators)
        (file : option (list json)) (s : Server) (rs : list Request) :
  start fit unfitted file = inr s ->
  trained (model (session fit s rs)) = true
  /\ statistical (model (session fit s rs)).
Proof.
  unfold start. intros H.
  destruct (new_model fit unfitted file) as [err | m] eqn:Hnew;
    [discriminate |].
  injection H as <-.
  destruct (new_model_result unfitted file m Hnew) as [Ht _].
  assert (trained (model (session fit (mkServer m file) rs)) = true) as Hs
    by (apply session_stays_trained; exact Ht).
  split; [exact Hs |].
  intros text. unfold predict. now rewrite Hs.
Qed.

End Start.

Lemma started_server_statistical_witness :
  statistical
    (model (session refit_unchanged
              (mkServer (mkModel sphere_only_estimators default_data true)
                        None)
              [PostParseText (inr (JObj [("text" : str, JStr "cube")]))])).
Proof.
  apply (started_server_statistical refit_unchanged sphere_only_estimators
           None).
  reflexivity.
Defined.

(** ** The composite rule *)

Lemma find_first {A} (f : A -> bool) (l : list A) :
  forall i a,
    nth_error l i = Some a -> f a = true ->
    (forall j b, (j < i)%nat -> nth_error l j = Some b -> f b = false) ->
    find f l = Some a.
Proof.
  induction l as [| x l IH]; intros i a Hi Ha Hbefore.
  - destruct i; discriminate.
  - destruct i as [| i]; simpl in *.
    + injection Hi as ->. now rewrite Ha.
    + rewrite (Hbefore 0%nat x (Nat.lt_0_succ i) eq_refl).
      apply (IH i a Hi Ha). intros j b Hj Hnth.
      apply (Hbefore (S j) b); [lia | exact Hnth].
Qed.

(** X18: when a text is taken as multi-object, has no " and " and no
    quantity match, and names of composites occur in it, the composite
    that comes first in the table (house, then table, then snowman) is
    built, whatever other names occur: one object per part, the
    prediction for the part's phrase put at the part's position with size
    and radius multiplied by the part's factor. *)
Theorem composite_rule (m : TextToCADModel) (text : str) (i : nat)
        (name : str) (parts : list (str * Position * Q)) :
  is_multi_object (Py.lower text) = true ->
  Py.contains " and " (Py.lower text) = false ->
  search_groups quantity_pattern (Py.lower text) = None ->
  nth_error composite_shapes i = Some (name, parts) ->
  occurs name (Py.lower text) ->
  (forall j name' parts', (j < i)%nat ->
     nth_error composite_shapes j = Some (name', parts') ->
     ~ occurs name' (Py.lower text)) ->
  value (parse m text) = map (composite_part m) parts.
Proof.
  intros Hdetect Hand Hq Hi Hocc Hbefore.
  unfold parse. rewrite Hdetect.
  unfold extract_multiple_objects. rewrite Hand, Hq.
  rewrite (find_first _ composite_shapes i (name, parts) Hi).
  - rewrite value_for_each. apply map_ext.
    intros [[part_text position] size_mult]. reflexivity.
  - now apply contains_spec.
  - intros j [name' parts'] Hj Hnth. apply contains_false.
    now apply (Hbefore j name' parts').
Qed.

Lemma composite_rule_witness :
  map shape
      (value (parse untrained_model "a Snowman next to the dinner table"))
  = ["cube"; "cylinder"; "cylinder"; "cylinder"; "cylinder"].
Proof.
  rewrite (composite_rule untrained_model
             "a Snowman next to the dinner table" 1 "table"
             [ ("cube top" : str, mkPosition 0 2 0, 1.0);
               ("cylinder leg" : str, mkPosition (-1.5) 0 (-1.5), 0.3);
               ("cylinder leg" : str, mkPosition 1.5 0 (-1.5), 0.3);
               ("cylinder leg" : str, mkPosition (-1.5) 0 1.5, 0.3);
               ("cylinder leg" : str, mkPosition 1.5 0 1.5, 0.3) ]).
  - reflexivity.
  - reflexivity.
  - reflexivity.
  - reflexivity.
  - reflexivity.
  - exists ("a snowman next to the dinner " : str), ([] : str). reflexivity.
  - intros j name' parts' Hj Hnth. destruct j as [| j]; [| lia].
    injection Hnth as <- _. apply contains_false. reflexivity.
Defined.

(** ** The colours *)

Lemma first_color_in_palette (entries : list (str * Z)) (t : str) :
  In (first_color entries t) (default_color :: map snd entries).
Proof.
  induction entries as [| [k v] entries IH]; simpl; [now left |].
  destruct (Py.contains k t); [right; now left |].
  destruct IH as [IH | IH]; [now left | right; now right].
Qed.

(** X19: the colour of every object the parser returns, for every text and
    every model, is the default 0x667eea or one of the values of the
    colour table: no other colour is ever produced. *)
Theorem parse_colors_in_palette (m : TextToCADModel) (text : str) :
  Forall (fun o => In (color o) palette) (value (parse m text)).
Proof.
  apply Forall2_right with (l := predictor_calls (parse m text)).
  assert (forall call, In (color (predict m call)) palette) as H.
  { intros call. rewrite predict_color. apply first_color_in_palette. }
  apply parse_calls; intros; simpl; apply H.
Qed.

(* ================================================================== *)
(** * The exception of int *)
(* ================================================================== *)

Lemma int_within (s : str) :
  (length s <= max_str_digits)%nat -> int s = inr (Py.int s).
Proof.
  intros H. unfold int.
  destruct (max_str_digits <? length s)%nat eqn:E; [| reflexivity].
  apply Nat.ltb_lt in E. lia.
Qed.

Lemma int_beyond (s : str) :
  (max_str_digits < length s)%nat ->
  int s = inl (int_limit_message (length s)).
Proof.
  intros H. unfold int. apply Nat.ltb_lt in H. now rewrite H.
Qed.

(** [parse_exn] raises exactly when [int] is reached with a numeral beyond
    the limit, and returns what [parse] computes otherwise. *)
Lemma parse_exn_cases (m : TextToCADModel) (text : str) :
  parse_exn m text
  = match int_argument text with
    | Some number =>
        if (max_str_digits <? length number)%nat
        then inl (int_limit_message (length number))
        else inr (parse m text)
    | None => inr (parse m text)
    end.
Proof.
  unfold parse_exn, parse, int_argument.
  destruct (is_multi_object (Py.lower text)); [| reflexivity].
  unfold extract_multiple_objects_exn, extract_multiple_objects.
  destruct (Py.contains " and " (Py.lower text)); [reflexivity |].
  destruct (search_groups quantity_pattern (Py.lower text))
    as [[group1 group2] |].
  { unfold int. destruct (max_str_digits <? length group1)%nat; reflexivity. }
  destruct (find _ composite_shapes) as [[name parts] |]; [reflexivity |].
  destruct (search_groups stack_pattern (Py.lower text))
    as [[group1 group2] |]; [| reflexivity].
  unfold int. destruct (max_str_digits <? length group1)%nat; reflexivity.
Qed.

Lemma parse_exn_within (m : TextToCADModel) (text number : str) :
  int_argument text = Some number ->
  (length number <= max_str_digits)%nat ->
  parse_exn m text = inr (parse m text).
Proof.
  intros Hint Hlen. rewrite parse_exn_cases, Hint.
  destruct (max_str_digits <? length number)%nat eqn:E; [| reflexivity].
  apply Nat.ltb_lt in E. lia.
Qed.

Lemma parse_exn_beyond (m : TextToCADModel) (text number : str) :
  int_argument text = Some number ->
  (max_str_digits < length number)%nat ->
  parse_exn m text = inl (int_limit_message (length number)).
Proof.
  intros Hint Hlen. rewrite parse_exn_cases, Hint.
  apply Nat.ltb_lt in Hlen. now rewrite Hlen.
Qed.

(** The texts with an [int] argument are the quantity and the stacking
    requests. *)
Lemma int_argument_request (text number : str) :
  int_argument text = Some number ->
  quantity_request text (Py.int number)
  \/ stacking_request text (Py.int number).
Proof.
  unfold int_argument, quantity_request, stacking_request.
  destruct (is_multi_object (Py.lower text)) eqn:Hdetect; [| discriminate].
  destruct (Py.contains " and " (Py.lower text)) eqn:Hand; [discriminate |].
  destruct (search_groups quantity_pattern (Py.lower text))
    as [[group1 group2] |] eqn:Hq.
  { intros H. injection H as ->. left. repeat split.
    now exists number, group2. }
  destruct (find _ composite_shapes) as [[name parts] |] eqn:Hc;
    [discriminate |].
  destruct (search_groups stack_pattern (Py.lower text))
    as [[group1 group2] |] eqn:Hs; [| discriminate].
  intros H. injection H as ->. right. repeat split.
  now exists number, group2.
Qed.

Lemma request_int_argument (text : str) (count : Z) :
  quantity_request text count \/ stacking_request text count ->
  exists number, int_argument text = Some number /\ count = Py.int number.
Proof.
  intros [Hq | Hs].
  - destruct Hq as (Hdetect & Hand & number & noun & Hmatch & ->).
    exists number. split; [| reflexivity].
    unfold int_argument. now rewrite Hdetect, Hand, Hmatch.
  - pose proof (stacking_request_detected text count Hs) as Hdetect.
    destruct Hs as (Hand & Hnoq & Hnoc & number & word & Hmatch & ->).
    exists number. split; [| reflexivity].
    unfold int_argument. now rewrite Hdetect, Hand, Hnoq, Hnoc, Hmatch.
Qed.

(** ** Capping of the counts *)

Lemma overlong_count_argument :
  int_argument overlong_count_text = Some (repeat "1"%char 4301).
Proof. vm_compute. reflexivity. Qed.




(** ** The quantity rule on a number and a plural *)

Lemma count_plural_argument (digits spaces noun singular : str) :
  all_of Py.is_digit digits -> all_of Py.is_space spaces ->
  In (noun, singular) detected_singulars ->
  int_argument (digits ++ spaces ++ noun) = Some digits.
Proof.
  intros Hd Hs Hnoun.
  destruct (count_plural_facts digits spaces noun singular Hd Hs Hnoun)
    as (Hlower & Hdetect & Hand & Hmatch).
  unfold int_argument. now rewrite Hlower, Hdetect, Hand, Hmatch.
Qed.

(** X5: for a number of at most 4300 digits, white space and one of
    [spheres], [cubes], [cylinders], [cones], whatever the number of
    blanks, the parser returns min(count, 10) copies of the prediction for
    the singular, the i-th at x = 2i - count with y = z = 0: the offset
    uses the count as written, not the capped one, and a count of 0 gives
    no object.  With more than 4300 digits the parser raises the
    [ValueError] of [int]. *)
Theorem quantity_row (m : TextToCADModel)
        (digits spaces noun singular : str) :
  all_of Py.is_digit digits -> all_of Py.is_space spaces ->
  In (noun, singular) detected_singulars ->
  let count := Py.int digits in
  ((length digits <= max_str_digits)%nat ->
   returns (parse_exn m (digits ++ spaces ++ noun))
     (map (fun i =>
             set_position (predict m singular)
               (mkPosition (inject_Z (Z.of_nat i * 2 - count)) 0 0))
          (range (Z.min count 10))))
  /\ ((max_str_digits < length digits)%nat ->
      parse_exn m (digits ++ spaces ++ noun)
      = inl (int_limit_message (length digits))).
Proof.
  intros Hd Hs Hnoun count.
  pose proof (count_plural_argument digits spaces noun singular Hd Hs Hnoun)
    as Hint.
  split; [| now apply parse_exn_beyond].
  intros Hlen.
  rewrite (parse_exn_within m _ digits Hint Hlen).
  destruct (count_plural_facts digits spaces noun singular Hd Hs Hnoun)
    as (Hlower & Hdetect & Hand & Hmatch).
  unfold returns, parse. rewrite Hlower, Hdetect.
  unfold extract_multiple_objects. rewrite Hand, Hmatch.
  eexists. rewrite (surjective_pairing (for_each _ _)).
  f_equal. f_equal. apply value_for_each.
Qed.

Lemma quantity_row_witness :
  returns (parse_exn untrained_model "012   cones")
    (map (fun i =>
            set_position (predict untrained_model "cone")
              (mkPosition (inject_Z (Z.of_nat i * 2 - 12)) 0 0))
         (seq 0 10))
  /\ returns (parse_exn sphere_only_model "0 cubes") [].
Proof.
  split.
  - apply (proj1 (quantity_row untrained_model "012" "   " "cones" "cone"
                    (conj (fun H => nil_cons (eq_sym H)) eq_refl)
                    (conj (fun H => nil_cons (eq_sym H)) eq_refl)
                    (or_intror (or_intror (or_intror (or_introl eq_refl)))))).
    unfold max_str_digits. simpl. lia.
  - apply (proj1 (quantity_row sphere_only_model "0" " " "cubes" "cube"
                    (conj (fun H => nil_cons (eq_sym H)) eq_refl)
                    (conj (fun H => nil_cons (eq_sym H)) eq_refl)
                    (or_intror (or_introl eq_refl)))).
    unfold max_str_digits. simpl. lia.
Defined.

(** ** The stacking rule *)

Lemma stacking_match_argument (text number word : str) :
  stacking_match text number word -> int_argument text = Some number.
Proof.
  intros (Hand & Hnoq & Hnoc & Hmatch).
  assert (stacking_request text (Py.int number)) as Hreq
    by (repeat split; try assumption; now exists number, word).
  pose proof (stacking_request_detected text _ Hreq) as Hdetect.
  unfold int_argument. now rewrite Hdetect, Hand, Hnoq, Hnoc, Hmatch.
Qed.

(** X6: when the stacking rule answers with a numeral of at most 4300
    digits, the parser returns min(count, 10) objects, each the
    prediction for the captured word with only the position changed, all
    with x = z = 0 and the first at y = 0.  With more than 4300 digits
    the parser raises the [ValueError] of [int]. *)
Theorem stacking_column (m : TextToCADModel) (text number word : str) :
  stacking_match text number word ->
  ((length number <= max_str_digits)%nat ->
   exists ys,
     returns (parse_exn m text)
       (map (fun y => set_position (predict m word) (mkPosition 0 y 0)) ys)
     /\ length ys = Z.to_nat (Z.min (Py.int number) 10)
     /\ (ys = [] \/ exists rest, ys = 0 :: rest))
  /\ ((max_str_digits < length number)%nat ->
      parse_exn m text = inl (int_limit_message (length number))).
Proof.
  intros Hmatch.
  pose proof (stacking_match_argument text number word Hmatch) as Hint.
  split; [| now apply parse_exn_beyond].
  intros Hlen.
  rewrite (parse_exn_within m text number Hint Hlen).
  assert (stacking_request text (Py.int number)) as Hreq.
  { destruct Hmatch as (Hand & Hnoq & Hnoc & Hs).
    repeat split; try assumption. now exists number, word. }
  pose proof (stacking_request_detected text _ Hreq) as Hdetect.
  destruct Hmatch as (Hand & Hnoq & Hnoc & Hs).
  exists (map (fun k =>
                 Nat.iter k (fun y => y + size (predict m word) * 2) 0)
              (seq 0 (Z.to_nat (Z.min (Py.int number) 10)))).
  split; [| split].
  - unfold returns, parse. rewrite Hdetect.
    unfold extract_multiple_objects. rewrite Hand, Hnoq, Hnoc, Hs.
    eexists. rewrite (surjective_pairing (stack_loop _ _ _ _)).
    f_equal. f_equal.
    change (fst (stack_loop m word (Z.to_nat (Z.min (Py.int number) 10)) 0))
      with (value (stack_loop m word
                     (Z.to_nat (Z.min (Py.int number) 10)) 0)).
    rewrite stack_loop_value, map_map. reflexivity.
  - now rewrite length_map, length_seq.
  - destruct (Z.to_nat (Z.min (Py.int number) 10)) as [| n];
      [now left | right].
    simpl. eexists. reflexivity.
Qed.

Lemma stacking_column_witness :
  exists ys,
    returns (parse_exn untrained_model "Stack 4 large blocks")
      (map (fun y =>
              set_position (predict untrained_model "large")
                           (mkPosition 0 y 0)) ys)
    /\ length ys = 4%nat.
Proof.
  destruct (proj1 (stacking_column untrained_model "Stack 4 large blocks"
                     "4" "large"
                     (conj eq_refl (conj eq_refl (conj eq_refl eq_refl)))))
    as (ys & H & Hlen & _).
  - unfold max_str_digits. simpl. lia.
  - exists ys. split; [exact H | exact Hlen].
Defined.

(** ** No object at all *)

(** X8: the parser returns an empty list exactly when the quantity rule or
    the stacking rule applies [int] to a numeral of at most 4300 digits
    whose value is 0; on every other text it returns at least one object
    or raises. *)
Theorem parse_empty_iff_zero_count (m : TextToCADModel) (text : str) :
  returns (parse_exn m text) [] <->
  exists number,
    int_argument text = Some number
    /\ (length number <= max_str_digits)%nat
    /\ Py.int number = 0%Z.
Proof.
  split.
  - intros (calls & Hr). rewrite parse_exn_cases in Hr.
    assert (value (parse m text) = [] ->
            exists number,
              int_argument text = Some number /\ Py.int number = 0%Z)
      as Hzero.
    { intros Hnil. apply parse_empty_cases in Hnil.
      destruct (request_int_argument text 0 Hnil) as (number & Hint & H0).
      exists number. split; [exact Hint | now symmetry]. }
    destruct (int_argument text) as [number |] eqn:Hint.
    + destruct (max_str_digits <? length number)%nat eqn:E;
        [discriminate Hr |].
      apply Nat.ltb_ge in E. injection Hr as Hr.
      destruct Hzero as (number' & Hn & H0); [now rewrite Hr |].
      injection Hn as <-. now exists number.
    + injection Hr as Hr.
      destruct Hzero as (number' & Hn & _); [now rewrite Hr | discriminate].
  - intros (number & Hint & Hlen & H0).
    rewrite (parse_exn_within m text number Hint Hlen).
    assert (value (parse m text) = []) as Hnil.
    { apply parse_empty_cases. rewrite <- H0.
      now apply int_argument_request. }
    unfold returns. exists (predictor_calls (parse m text)).
    rewrite (surjective_pairing (parse m text)).
    unfold value in Hnil. now rewrite Hnil.
Qed.

Lemma parse_empty_iff_zero_count_witness :
  returns (parse_exn sphere_only_model "stack 000 crates") [].
Proof.
  apply (proj2 (parse_empty_iff_zero_count sphere_only_model
                  "stack 000 crates")).
  exists ("000" : str). split; [reflexivity |].
  split; [unfold max_str_digits; simpl; lia | reflexivity].
Defined.

(** ** The status of /parse-text *)

Lemma has_text_unique (fields : list (str * json)) (text : str) :
  lookup "text" fields = Some (JStr text) ->
  forall number,
    int_argument text = Some number ->
    (max_str_digits < length number)%nat ->
    overlong_count (inr (JObj fields)).
Proof.
  intros Hl number Hint Hlen. now exists fields, text, number.
Qed.

Lemma not_overlong (fields : list (str * json)) (text : str) :
  lookup "text" fields = Some (JStr text) ->
  (forall number, int_argument text = Some number ->
                  (length number <= max_str_digits)%nat) ->
  ~ overlong_count (inr (JObj fields)).
Proof.
  intros Hl Hall (fields' & text' & number & Heq & Hl' & Hint & Hlen).
  injection Heq as <-. rewrite Hl in Hl'. injection Hl' as <-.
  specialize (Hall number Hint). lia.
Qed.

(** The four outcomes of [/parse-text]. *)
Lemma parse_text_exn_outcomes (m : TextToCADModel)
      (request_json : RequestJson) :
  (has_text request_json /\ ~ overlong_count request_json
   /\ status_code (value (parse_text_exn m request_json)) = 200%nat)
  \/ (has_text request_json /\ overlong_count request_json
      /\ status_code (value (parse_text_exn m request_json)) = 500%nat
      /\ predictor_calls (parse_text_exn m request_json) = [])
  \/ (lacks_text request_json
      /\ status_code (value (parse_text_exn m request_json)) = 400%nat
      /\ predictor_calls (parse_text_exn m request_json) = [])
  \/ (~ has_text request_json /\ ~ lacks_text request_json
      /\ status_code (value (parse_text_exn m request_json)) = 500%nat
      /\ predictor_calls (parse_text_exn m request_json) = []).
Proof.
  destruct request_json as [e | data]; [right; not_an_object |].
  destruct data as [| b | n | q | s | items | fields];
    try (right; not_an_object).
  destruct (lookup "text" fields) as [v |] eqn:E.
  2:{ right. right. left. split; [exists fields; auto |].
      unfold parse_text_exn, get. rewrite E. split; reflexivity. }
  destruct (truthy v) eqn:T.
  2:{ right. right. left.
      split; [exists fields; split; [reflexivity |]; right; now exists v |].
      unfold parse_text_exn, get. rewrite E, T. split; reflexivity. }
  destruct v as [| b | n | q | s | items | fields'];
    try (right; right; right;
         split; [intros (f & t & Heq & Hl & _); injection Heq as <-;
                 rewrite E in Hl; discriminate Hl |];
         split; [intros (f & Heq & [Hn | (v' & Hv & Hf)]);
                 injection Heq as <-; rewrite E in *;
                 [discriminate Hn | injection Hv as <-; congruence] |];
         unfold parse_text_exn, get; rewrite E, T; split; reflexivity).
  assert (has_text (inr (JObj fields))) as Hhas.
  { exists fields, s. repeat split; [exact E |].
    destruct s; [discriminate T | discriminate]. }
  unfold parse_text_exn, get. rewrite E, T. simpl negb. cbv iota.
  rewrite parse_exn_cases.
  destruct (int_argument s) as [number |] eqn:Hint.
  - destruct (max_str_digits <? length number)%nat eqn:Hlen.
    + apply Nat.ltb_lt in Hlen. right. left.
      split; [exact Hhas |].
      split; [now apply (has_text_unique fields s E number) |].
      split; reflexivity.
    + apply Nat.ltb_ge in Hlen. left. split; [exact Hhas |]. split.
      * apply (not_overlong fields s E). intros number' H.
        rewrite Hint in H. now injection H as <-.
      * rewrite value_bind. reflexivity.
  - left. split; [exact Hhas |]. split.
    + apply (not_overlong fields s E). intros number' H.
      rewrite Hint in H. discriminate H.
    + rewrite value_bind. reflexivity.
Qed.

(** X12: [/parse-text] answers 200 exactly for a JSON object whose "text"
    is a non-empty string that does not take the parser to [int] with a
    numeral of more than 4300 digits; 400 exactly for a JSON object whose
    "text" is missing or false in Python's sense (empty string, 0, null,
    false, empty list or object); and 500 in every other case (a body
    that is not an object, a "text" that is a non-zero number, true, or a
    non-empty list or object, or the [ValueError] of [int]).  The
    predictor is called only for 200. *)
Theorem parse_text_status (m : TextToCADModel) (request_json : RequestJson) :
  let response := value (parse_text_exn m request_json) in
  (status_code response = 200%nat <->
   has_text request_json /\ ~ overlong_count request_json)
  /\ (status_code response = 400%nat <-> lacks_text request_json)
  /\ (status_code response = 200%nat \/ status_code response = 400%nat
      \/ status_code response = 500%nat)
  /\ (status_code response <> 200%nat ->
      predictor_calls (parse_text_exn m request_json) = []).
Proof.
  cbv zeta.
  destruct (parse_text_exn_outcomes m request_json)
    as [(Hhas & Hno & ->)
       | [(Hhas & Hover & -> & Hcalls)
         | [(Hlacks & -> & Hcalls) | (Hn1 & Hn2 & -> & Hcalls)]]].
  - pose proof (has_text_not_lacks request_json Hhas).
    repeat split; auto; try discriminate; try tauto.
  - pose proof (has_text_not_lacks request_json Hhas).
    repeat split; auto; try discriminate; try tauto.
  - assert (~ has_text request_json)
      by (intros H; now apply (has_text_not_lacks request_json H)).
    repeat split; auto; try discriminate; try tauto.
  - repeat split; auto; try discriminate; try tauto.
Qed.

Lemma parse_text_status_witness :
  status_code
    (value (parse_text_exn untrained_model
              (inr (JObj [("text" : str, JInt 0)])))) = 400%nat
  /\ status_code
       (value (parse_text_exn untrained_model
                 (inr (JObj [("text" : str, JStr "red ball")])))) = 200%nat.
Proof.
  split.
  - apply (proj1 (proj2 (parse_text_status untrained_model
                           (inr (JObj [("text" : str, JInt 0)]))))).
    exists [("text" : str, JInt 0)]. split; [reflexivity |].
    right. exists (JInt 0). split; reflexivity.
  - apply (proj1 (parse_text_status untrained_model
                    (inr (JObj [("text" : str, JStr "red ball")])))).
    split.
    + exists [("text" : str, JStr "red ball")], ("red ball" : str).
      repeat split. discriminate.
    + apply (not_overlong [("text" : str, JStr "red ball")]
                          ("red ball" : str) eq_refl).
      intros number H. discriminate H.
Defined.

(** The overlong count is answered 500 with the message of [int]. *)
Lemma parse_text_overlong_count :
  parse_text_exn sphere_only_model
    (inr (JObj [("text" : str, JStr overlong_count_text)]))
  = (mkResponse
       (ErrorBody (int_limit_message (length (repeat "1"%char 4301)))) 500,
     []).
Proof.
  unfold parse_text_exn, get.
  change (lookup "text" [("text" : str, JStr overlong_count_text)])
    with (Some (JStr overlong_count_text)).
  cbv beta iota.
  change (negb (truthy (JStr overlong_count_text))) with false.
  cbv beta iota.
  rewrite (parse_exn_beyond sphere_only_model overlong_count_text
             (repeat "1"%char 4301) overlong_count_argument).
  - reflexivity.
  - rewrite repeat_length. unfold max_str_digits. lia.
Qed.

(** ** Construction of the model on any file *)

Section StartExn.

Variable fit : list json -> Estimators -> Estimators * option str.

Lemma new_model_exn_array (unfitted : Estimators) (data : list json) :
  new_model_exn fit unfitted (Some (inr (JArr data)))
  = new_model fit unfitted (Some data).
Proof. reflexivity. Qed.

Lemma new_model_exn_default (unfitted : Estimators) (file : TrainingFile) :
  load_training_data_exn fit (mkModel unfitted [] false) file
  = inr (mkModel unfitted [] false) ->
  new_model_exn fit unfitted file = new_model fit unfitted None.
Proof. intros H. unfold new_model_exn. now rewrite H. Qed.

(** X16: a model whose construction does not raise is trained and holds at
    least 5 examples: the content of [training_data.json] when the file
    holds a list of at least 5 examples, and otherwise (no file, or a
    decoded value with fewer than 5 elements, which is dropped) the 18
    default examples.  The construction raises when [json.load] raises,
    when the decoded value has no length (null, a boolean, a number), and
    when it is a string or an object with at least 5 elements. *)
Theorem new_model_is_trained (unfitted : Estimators) (file : TrainingFile) :
  (forall m,
      new_model_exn fit unfitted file = inr m ->
      trained m = true
      /\ (5 <= length (training_data m))%nat
      /\ ((exists data, file = Some (inr (JArr data))
                        /\ (5 <= length data)%nat
                        /\ training_data m = data)
          \/ ((file = None
               \/ exists v n, file = Some (inr v) /\ len v = inr n
                              /\ (n < 5)%nat)
              /\ training_data m = default_data)))
  /\ (forall error,
         file = Some (inl error) ->
         new_model_exn fit unfitted file = inl error)
  /\ (forall v error,
         file = Some (inr v) -> len v = inl error ->
         new_model_exn fit unfitted file = inl error)
  /\ (forall v n,
         file = Some (inr v) -> (forall data, v <> JArr data) ->
         len v = inr n -> (5 <= n)%nat ->
         exists error, new_model_exn fit unfitted file = inl error).
Proof.
  split; [| split; [| split]].
  - intros m H.
    assert (forall file',
              new_model fit unfitted file' = inr m ->
              trained m = true
              /\ (5 <= length (training_data m))%nat
              /\ ((exists data, file' = Some data /\ (5 <= length data)%nat
                                /\ training_data m = data)
                  \/ ((file' = None
                       \/ exists data, file' = Some data
                                       /\ (length data < 5)%nat)
                      /\ training_data m = default_data))) as Hold.
    { intros file' H'.
      destruct (new_model_result fit unfitted file' m H') as [Ht Hc].
      split; [exact Ht |]. split; [| exact Hc].
      destruct Hc as [(data & _ & Hlen & ->) | [_ ->]];
        [exact Hlen | rewrite default_data_length; lia]. }
    assert (new_model fit unfitted None = inr m ->
            trained m = true /\ (5 <= length (training_data m))%nat
            /\ training_data m = default_data) as Hnone.
    { intros H'. destruct (Hold None H') as (Ht & Hl & Hc).
      split; [exact Ht |]. split; [exact Hl |].
      destruct Hc as [(data & Hf & _) | [_ Hd]];
        [discriminate Hf | exact Hd]. }
    destruct file as [[error | v] |].
    + discriminate H.
    + destruct v as [| b | n | q | s | data | fields];
        try discriminate H.
      * unfold new_model_exn, load_training_data_exn, len in H.
        destruct (5 <=? length s)%nat eqn:Hlen; [discriminate H |].
        apply Nat.leb_gt in Hlen.
        destruct (Hnone H) as (Ht & Hl & Hd).
        split; [exact Ht |]. split; [exact Hl |]. right.
        split; [| exact Hd]. right. now exists (JStr s), (length s).
      * rewrite new_model_exn_array in H.
        destruct (Hold (Some data) H) as (Ht & Hl & Hc).
        split; [exact Ht |]. split; [exact Hl |].
        destruct Hc as [(data' & Hf & Hlen & Hd) | [[Hf | (d & Hf & Hlen)] Hd]].
        -- injection Hf as <-. left. now exists data.
        -- discriminate Hf.
        -- injection Hf as <-. right. split; [| exact Hd].
           right. now exists (JArr data), (length data).
      * unfold new_model_exn, load_training_data_exn, len in H.
        destruct (5 <=? length fields)%nat eqn:Hlen; [discriminate H |].
        apply Nat.leb_gt in Hlen.
        destruct (Hnone H) as (Ht & Hl & Hd).
        split; [exact Ht |]. split; [exact Hl |]. right.
        split; [| exact Hd]. right. now exists (JObj fields), (length fields).
    + destruct (Hnone H) as (Ht & Hl & Hd).
      split; [exact Ht |]. split; [exact Hl |]. right. split; [now left | exact Hd].
  - intros error ->. reflexivity.
  - intros v error -> Hlen. unfold new_model_exn, load_training_data_exn.
    destruct v as [| b | n | q | s | data | fields];
      try discriminate Hlen; rewrite Hlen; reflexivity.
  - intros v n -> Hnot Hlen Hfive.
    unfold new_model_exn, load_training_data_exn.
    destruct v as [| b | k | q | s | data | fields];
      try discriminate Hlen.
    + rewrite Hlen. apply Nat.leb_le in Hfive. rewrite Hfive. eauto.
    + now contradiction (Hnot data).
    + rewrite Hlen. apply Nat.leb_le in Hfive. rewrite Hfive. eauto.
Qed.

End StartExn.

Lemma new_model_is_trained_witness :
  exists m,
    new_model_exn refit_unchanged sphere_only_estimators
                  (Some (inr (JArr [sphere_example]))) = inr m
    /\ trained m = true /\ training_data m = default_data.
Proof.
  eexists. split; [reflexivity |].
  destruct (proj1 (new_model_is_trained refit_unchanged
                     sphere_only_estimators
                     (Some (inr (JArr [sphere_example])))) _ eq_refl)
    as (Ht & _ & [(data & Hfile & Hlen & _) | [_ Hd]]).
  - injection Hfile as <-. simpl in Hlen. lia.
  - split; assumption.
Defined.
